(** * The location agent of [main.py]: tool loop, place resolution, summaries

    A shallow embedding of the [Agent] class.  Python strings are sequences
    of Unicode code points, so a [str] is a list of code points and [len]
    is the length of that list.  Exceptions are values of [exn] carried by
    [result]; the transcript and the record of calls made to the outside
    world are threaded through a state-and-exception monad. *)

From Stdlib Require Import List NArith ZArith Lia Bool String Ascii DecimalString.
Import ListNotations.

Set Implicit Arguments.
Set Warnings "-register-all".

(** ** Python strings *)

Definition char := N.
Definition str := list char.

Definition lit (s : string) : str :=
  map (fun a => N_of_ascii a) (list_ascii_of_string s).

Definition str_eqb (a b : str) : bool :=
  if list_eq_dec N.eq_dec a b then true else false.

Definition SPACE : char := 32%N.
Definition HYPHEN : char := 45%N.
Definition NEWLINE : char := 10%N.
Definition ELLIPSIS : char := 8230%N.

(** [str.isspace] on one character: the code points Python treats as
    whitespace. *)
Definition isspace (c : char) : bool :=
  ((9 <=? c) && (c <=? 13) || (28 <=? c) && (c <=? 32)
   || (c =? 133) || (c =? 160) || (c =? 5760)
   || (8192 <=? c) && (c <=? 8202)
   || (c =? 8232) || (c =? 8233) || (c =? 8239) || (c =? 8287)
   || (c =? 12288))%N.

Fixpoint lstrip (s : str) : str :=
  match s with
  | c :: s' => if isspace c then lstrip s' else s
  | [] => []
  end.

(** [s.strip()] *)
Definition strip (s : str) : str := rev (lstrip (rev (lstrip s))).

Fixpoint startswith (p s : str) : bool :=
  match p, s with
  | [], _ => true
  | a :: p', b :: s' => (a =? b)%N && startswith p' s'
  | _ :: _, [] => false
  end.

(** [p in s] for strings *)
Fixpoint contains (p s : str) : bool :=
  startswith p s ||
  match s with
  | [] => false
  | _ :: s' => contains p s'
  end.

(** [s.split(sep)[0]] for a non-empty [sep]: the text before the first
    occurrence of [sep], the whole of [s] when there is none. *)
Fixpoint split_first (sep s : str) : str :=
  match s with
  | [] => []
  | c :: s' => if startswith sep s then [] else c :: split_first sep s'
  end.

(** [s.rsplit(' ', 1)[0]]: the text before the last space, the whole of
    [s] when it has no space.  The accumulator-free form below returns, with
    the result, whether a space was met in the rest of the string. *)
Fixpoint rsplit_space (s : str) : str * bool :=
  match s with
  | [] => ([], false)
  | c :: s' =>
      let (r, found) := rsplit_space s' in
      if found then (c :: r, true)
      else if (c =? SPACE)%N then ([], true)
      else (c :: r, false)
  end.

Definition rsplit_space_head (s : str) : str := fst (rsplit_space s).

(** [s.replace(' ', '-')] *)
Definition replace_space_hyphen (s : str) : str :=
  map (fun c => if (c =? SPACE)%N then HYPHEN else c) s.

(** [sep.join(parts)] *)
Fixpoint join (sep : str) (parts : list str) : str :=
  match parts with
  | [] => []
  | [p] => p
  | p :: ps => p ++ sep ++ join sep ps
  end.

(** [list(dict.fromkeys(l))]: duplicates dropped, first occurrences kept in
    order. *)
Fixpoint dedup_from (seen : list str) (l : list str) : list str :=
  match l with
  | [] => []
  | x :: l' =>
      if existsb (str_eqb x) seen then dedup_from seen l'
      else x :: dedup_from (x :: seen) l'
  end.

Definition fromkeys (l : list str) : list str := dedup_from [] l.

(** ** The excerpt of an article (lines 114-117) *)

Definition excerpt_of (content : str) : str :=
  let excerpt := strip (split_first [NEWLINE; NEWLINE] content) in
  if (500 <? List.length excerpt)%nat
  then rsplit_space_head (firstn 500 excerpt) ++ [ELLIPSIS]
  else excerpt.

(** ** Values, exceptions and results *)

(** What [json.loads] produces and [json.dumps] consumes.  A number with a
    fraction or an exponent is kept as its lexeme. *)
Inductive json :=
| JNull
| JBool (b : bool)
| JInt (z : Z)
| JFloat (lexeme : str)
| JStr (s : str)
| JArr (items : list json)
| JObj (fields : list (str * json)).

(** The exceptions the program distinguishes: the two lookup errors of the
    [wikipedia] package, and every other [Exception] with the name of its
    class and its message. *)
Inductive exn :=
| DisambiguationError (options : list str) (msg : str)
| PageError (msg : str)
| OtherError (kind : str) (msg : str).

Inductive result (A : Type) :=
| Ok (a : A)
| Raise (e : exn).
Arguments Ok {A} a.
Arguments Raise {A} e.

Definition rbind {A B} (r : result A) (k : A -> result B) : result B :=
  match r with
  | Ok a => k a
  | Raise e => Raise e
  end.

Declare Scope result_scope.
Delimit Scope result_scope with result.
Notation "x <- r ;; k" := (rbind r (fun x => k))
  (at level 61, r at next level, right associativity) : result_scope.

(** [str(e)] *)
Definition exn_str (e : exn) : str :=
  match e with
  | DisambiguationError _ msg => msg
  | PageError msg => msg
  | OtherError _ msg => msg
  end.

(** [type(v).__name__] *)
Definition type_name (v : json) : str :=
  match v with
  | JNull => lit "NoneType"
  | JBool _ => lit "bool"
  | JInt _ => lit "int"
  | JFloat _ => lit "float"
  | JStr _ => lit "str"
  | JArr _ => lit "list"
  | JObj _ => lit "dict"
  end.

Definition AttributeError (v : json) (attr : string) : exn :=
  OtherError (lit "AttributeError")
    (lit "'" ++ type_name v ++ lit "' object has no attribute '" ++ lit attr ++ lit "'").

Definition TypeError (msg : string) : exn :=
  OtherError (lit "TypeError") (lit msg).

Fixpoint assoc (k : str) (fields : list (str * json)) : option json :=
  match fields with
  | [] => None
  | (k', v) :: rest => if str_eqb k k' then Some v else assoc k rest
  end.

(** [v.get(key, default)]: only a dict has the method. *)
Definition py_get (v : json) (key : string) (default : json) : result json :=
  match v with
  | JObj fields =>
      match assoc (lit key) fields with
      | Some x => Ok x
      | None => Ok default
      end
  | _ => Raise (AttributeError v "get")
  end.

(** [v.strip()]: only a str has the method. *)
Definition py_strip (v : json) : result str :=
  match v with
  | JStr s => Ok (strip s)
  | _ => Raise (AttributeError v "strip")
  end.

Definition is_str (v : json) (s : string) : bool :=
  match v with
  | JStr t => str_eqb t (lit s)
  | _ => false
  end.

(** [key in v] for a str [key]. *)
Definition py_in (key : string) (v : json) : result bool :=
  match v with
  | JObj fields =>
      Ok (match assoc (lit key) fields with Some _ => true | None => false end)
  | JArr items => Ok (existsb (fun x => is_str x key) items)
  | JStr s => Ok (contains (lit key) s)
  | _ => Raise (TypeError "argument is not iterable")
  end.

(** [v[key]] for a str [key]. *)
Definition py_getitem (v : json) (key : string) : result json :=
  match v with
  | JObj fields =>
      match assoc (lit key) fields with
      | Some x => Ok x
      | None => Raise (OtherError (lit "KeyError") (lit key))
      end
  | JStr _ | JArr _ => Raise (TypeError "indices must be integers or slices, not str")
  | _ => Raise (TypeError "object is not subscriptable")
  end.

(** [v[:n]] *)
Definition py_slice (n : nat) (v : json) : result json :=
  match v with
  | JArr items => Ok (JArr (firstn n items))
  | JStr s => Ok (JStr (firstn n s))
  | JObj _ => Raise (TypeError "unhashable type: 'slice'")
  | _ => Raise (TypeError "object is not subscriptable")
  end.

Fixpoint all_strs (items : list json) : option (list str) :=
  match items with
  | [] => Some []
  | JStr s :: rest =>
      match all_strs rest with
      | Some l => Some (s :: l)
      | None => None
      end
  | _ :: _ => None
  end.

(** [sep.join(v)]: [v] must be an iterable of str. *)
Definition py_join (sep : str) (v : json) : result str :=
  match v with
  | JArr items =>
      match all_strs items with
      | Some l => Ok (join sep l)
      | None => Raise (TypeError "sequence item: expected str instance")
      end
  | JStr s => Ok (join sep (map (fun c => [c]) s))
  | JObj fields => Ok (join sep (map fst fields))
  | _ => Raise (TypeError "can only join an iterable")
  end.

(** ** The Python runtime and the outside world

    The language-level functions the program calls but does not define are
    fields of [Runtime]; the network collaborators are fields of
    [Services]. *)

Record Runtime := {
  lower : str -> str;                  (* str.lower *)
  title : str -> str;                  (* str.title *)
  unidecode : str -> str;              (* unidecode.unidecode *)
  py_str : json -> str;                (* format(v), as in an f-string *)
  json_loads : str -> option json;     (* json.loads; None when it raises *)
  json_dumps : json -> str             (* json.dumps *)
}.

(** A [wikipedia.WikipediaPage]; fetching the categories can fail. *)
Record page := {
  page_title : str;
  page_url : str;
  page_content : str;
  page_categories : result (list str)
}.

Record function_call := {
  fn_name : str;
  fn_arguments : json
}.

Record tool_call := {
  tc_id : str;
  tc_function : function_call
}.

(** [response.choices[0].message]: [tool_calls] is falsy ([None] or empty)
    exactly when the list is empty here. *)
Record response_message := {
  rm_content : option str;
  rm_tool_calls : list tool_call
}.

(** The dicts of the transcript: the caller's messages and the final
    answers, the assistant's record of a round's tool calls, and the tool
    results. *)
Inductive message :=
| Plain (role : str) (content : option str)
| AssistantCalls (content : option str) (calls : list tool_call)
| ToolResult (tool_call_id name content : str).

Record Services := {
  wiki_page : str -> bool -> result page;      (* wikipedia.page(t, auto_suggest=b) *)
  wiki_search : str -> result (list str);      (* wikipedia.search *)
  http_get_text : str -> result str;           (* requests.get(url).text *)
  chat_completion : list message -> result response_message
}.

(** ** The state of a run

    [messages] is the caller's list, mutated in place by [run]; [trace]
    records, in order, each request sent to the LLM and each integration
    method entered. *)

Inductive event :=
| LLMRequest (sent : list message)
| PublicIpLookup
| LocationLookup (ip_address : json)
| FactsLookup (name : json).

Record state := {
  messages : list message;
  trace : list event
}.

Definition M (A : Type) : Type := state -> result A * state.

Definition ret {A} (a : A) : M A := fun st => (Ok a, st).

Definition bind {A B} (m : M A) (k : A -> M B) : M B :=
  fun st =>
    match m st with
    | (Ok a, st') => k a st'
    | (Raise e, st') => (Raise e, st')
    end.

Definition raise {A} (e : exn) : M A := fun st => (Raise e, st).

Definition lift {A} (r : result A) : M A := fun st => (r, st).

(** [messages.append(m)] *)
Definition append_message (m : message) : M unit :=
  fun st => (Ok tt, {| messages := messages st ++ [m]; trace := trace st |}).

Definition get_messages : M (list message) :=
  fun st => (Ok (messages st), st).

Definition emit (e : event) : M unit :=
  fun st => (Ok tt, {| messages := messages st; trace := trace st ++ [e] |}).

Declare Scope run_scope.
Delimit Scope run_scope with run.
Notation "x <- m ;; k" := (bind m (fun x => k))
  (at level 61, m at next level, right associativity) : run_scope.
Notation "m ;; k" := (bind m (fun _ => k))
  (at level 61, right associativity) : run_scope.

Definition GET_PUBLIC_IP : str := lit "get_public_ip".
Definition GET_LOCATION : str := lit "get_location".
Definition GET_LOCATION_INFO : str := lit "get_location_info".

Definition max_iterations : nat := 5.

Definition MaxIterations : exn :=
  OtherError (lit "Exception") (lit "Max iterations reached without final response.").

Section Agent.

Variable py : Runtime.
Variable net : Services.

(** *** [__resolve_city_page] *)

Definition candidates (raw ascii_name : str) : list str :=
  fromkeys [ raw;
             title py raw;
             ascii_name;
             title py ascii_name;
             replace_space_hyphen raw;
             replace_space_hyphen ascii_name ].

(** The first loop: the first variant whose exact lookup succeeds; every
    exception moves on to the next variant. *)
Fixpoint direct_pass (cands : list str) : option page :=
  match cands with
  | [] => None
  | cand :: rest =>
      match wiki_page net cand false with
      | Ok p => Some p
      | Raise _ => direct_pass rest
      end
  end.

(** [cats = [c.lower() for c in page.categories]] and the [any(...)] over
    them; an exception while fetching the categories leaves the score as it
    is. *)
Definition category_bonus (p : page) : Z :=
  match page_categories p with
  | Ok cats =>
      if existsb (fun c => contains (lit "cities") (lower py c)
                           || contains (lit "populated places") (lower py c)) cats
      then 25 else 0
  | Raise _ => 0
  end%Z.

Definition score (raw ascii_name : str) (p : page) : Z :=
  let title_lower := lower py (page_title p) in
  ((if str_eqb title_lower (lower py raw) || str_eqb title_lower (lower py ascii_name)
    then 100 else 0)
   + (if contains (lower py raw) title_lower then 40 else 0)
   + (if contains (lit "city") title_lower then 15 else 0)
   + category_bonus p)%Z.

(** The second loop, over [results[:10]], with its two loop variables. *)
Fixpoint score_pass (raw ascii_name : str) (results : list str)
         (best_page : option page) (best_score : Z) : option page :=
  match results with
  | [] => best_page
  | r :: rest =>
      match wiki_page net r true with
      | Raise _ => score_pass raw ascii_name rest best_page best_score
      | Ok p =>
          let sc := score raw ascii_name p in
          if (best_score <? sc)%Z
          then score_pass raw ascii_name rest (Some p) sc
          else score_pass raw ascii_name rest best_page best_score
      end
  end.

Definition resolve_city_page (name : json) : result (option page) :=
  (raw <- py_strip name ;;
   let ascii_name := unidecode py raw in
   match direct_pass (candidates raw ascii_name) with
   | Some p => Ok (Some p)
   | None =>
       results <- wiki_search net ascii_name ;;
       match results with
       | [] => Ok None
       | _ => Ok (score_pass raw ascii_name (firstn 10 results) None (-1))
       end
   end)%result.

(** *** [__integrations_get_location_facts] *)

Definition not_found_payload (name : json) : json :=
  JObj [(lit "error", JStr (lit "not_found")); (lit "requested", name)].

Definition found_payload (name : json) (p : page) : json :=
  JObj [(lit "requested", name);
        (lit "resolved_title", JStr (page_title p));
        (lit "url", JStr (page_url p));
        (lit "excerpt", JStr (excerpt_of (page_content p)))].

Definition disambiguation_payload (name : json) (options : list str) : json :=
  JObj [(lit "error", JStr (lit "disambiguation")); (lit "requested", name);
        (lit "options", JArr (map JStr (firstn 10 options)))].

Definition general_payload (name : json) (e : exn) : json :=
  JObj [(lit "error", JStr (lit "general")); (lit "requested", name);
        (lit "details", JStr (exn_str e))].

(** The dict that is serialized, by the branch taken. *)
Definition location_facts_payload (name : json) : json :=
  match resolve_city_page name with
  | Ok None => not_found_payload name
  | Ok (Some p) => found_payload name p
  | Raise (DisambiguationError options _) => disambiguation_payload name options
  | Raise (PageError _) => not_found_payload name
  | Raise e => general_payload name e
  end.

Definition integrations_get_location_facts (name : json) : M str :=
  (emit (FactsLookup name) ;;
   ret (json_dumps py (location_facts_payload name)))%run.

(** *** [__integrations_get_public_ip], [__integrations_get_location] *)

Definition integrations_get_public_ip : M str :=
  (emit PublicIpLookup ;;
   text <- lift (http_get_text net (lit "https://ifconfig.me/ip")) ;;
   ret (strip text))%run.

Definition integrations_get_location (ip_address : json) : M str :=
  (emit (LocationLookup ip_address) ;;
   text <- lift (http_get_text net (lit "http://ip-api.com/json/" ++ py_str py ip_address)) ;;
   ret (strip text))%run.

(** *** [__execute_tool] *)

(** Lines 74-78: a str is parsed, and kept as it is when parsing fails. *)
Definition parse_arguments (arguments : json) : json :=
  match arguments with
  | JStr s =>
      match json_loads py s with
      | Some v => v
      | None => arguments
      end
  | _ => arguments
  end.

Definition unknown_tool_notice (tool_name : str) : str :=
  lit "Tool '" ++ tool_name ++ lit "' is not available.".

Definition execute_tool (tc : tool_call) : M str :=
  let tool_name := fn_name (tc_function tc) in
  let arguments := parse_arguments (fn_arguments (tc_function tc)) in
  if str_eqb tool_name GET_PUBLIC_IP then
    integrations_get_public_ip
  else if str_eqb tool_name GET_LOCATION then
    (ip_address <- lift (py_get arguments "ip_address" JNull) ;;
     integrations_get_location ip_address)%run
  else if str_eqb tool_name GET_LOCATION_INFO then
    (name <- lift (py_get arguments "name" JNull) ;;
     integrations_get_location_facts name)%run
  else
    ret (unknown_tool_notice tool_name).

(** *** [__summarize_location_facts] *)

Definition summarize_location_facts (content : str) : result str :=
  match content with
  | [] => Ok (lit "No information was retrieved.")
  | _ =>
    match json_loads py content with
    | None => Ok (firstn 500 content)
    | Some data =>
      (has_error <- py_in "error" data ;;
       if (has_error : bool) then
         err <- py_getitem data "error" ;;
         if is_str err "disambiguation" then
           options <- py_get data "options" (JArr []) ;;
           first5 <- py_slice 5 options ;;
           opts <- py_join (lit ", ") first5 ;;
           Ok (lit "Multiple possible matches: " ++ opts
               ++ lit ". Please specify more details (country/region).")
         else if is_str err "not_found" then
           requested <- py_get data "requested" JNull ;;
           Ok (lit "I could not find a page for '" ++ py_str py requested
               ++ lit "'. Please check spelling or add country.")
         else
           Ok (lit "Error fetching facts (" ++ py_str py err ++ lit "). Try again later.")
       else
         requested <- py_get data "requested" (JStr (lit "Unknown")) ;;
         title <- py_get data "resolved_title" requested ;;
         excerpt <- py_get data "excerpt" (JStr []) ;;
         url <- py_get data "url" (JStr []) ;;
         Ok (firstn 600 (py_str py title ++ lit ": " ++ py_str py excerpt
                         ++ lit " Source: " ++ py_str py url)))%result
    end
  end.

(** *** [run] *)

(** The [for tool_call in response_message.tool_calls] loop: [Some summary]
    when the loop left through [return summary], [None] when it ran to its
    end. *)
Fixpoint dispatch (calls : list tool_call) : M (option str) :=
  match calls with
  | [] => ret None
  | tool_call :: rest =>
      (tool_response <- execute_tool tool_call ;;
       append_message (ToolResult (tc_id tool_call)
                                  (fn_name (tc_function tool_call))
                                  tool_response) ;;
       if str_eqb (fn_name (tc_function tool_call)) GET_LOCATION_INFO then
         summary <- lift (summarize_location_facts tool_response) ;;
         append_message (Plain (lit "assistant") (Some summary)) ;;
         ret (Some summary)
       else dispatch rest)%run
  end.

(** The [while iteration < max_iterations] loop, by the number of rounds
    left.  The value returned is [summary] or [final_content], which is
    [None] when the response carries no text. *)
Fixpoint run_loop (rounds_left : nat) : M (option str) :=
  match rounds_left with
  | O => raise MaxIterations
  | S rounds_left' =>
      (msgs <- get_messages ;;
       emit (LLMRequest msgs) ;;
       response_message <- lift (chat_completion net msgs) ;;
       match rm_tool_calls response_message with
       | [] =>
           let final_content := rm_content response_message in
           append_message (Plain (lit "assistant") final_content) ;;
           ret final_content
       | calls =>
           append_message (AssistantCalls (rm_content response_message) calls) ;;
           finished <- dispatch calls ;;
           match finished with
           | Some summary => ret (Some summary)
           | None => run_loop rounds_left'
           end
       end)%run
  end.

Definition run : M (option str) := run_loop max_iterations.

End Agent.

(** ** A concrete runtime for plain text

    The functions of [Runtime] on the fragment of Python that the examples
    below run on: ASCII case mapping, integers and strings in f-strings, and
    JSON with [json.loads] and [json.dumps] at their default settings. *)

Module PlainPy.

Definition is_upper (c : char) : bool := ((65 <=? c) && (c <=? 90))%N.
Definition is_lower (c : char) : bool := ((97 <=? c) && (c <=? 122))%N.
Definition to_lower (c : char) : char := if is_upper c then (c + 32)%N else c.
Definition to_upper (c : char) : char := if is_lower c then (c - 32)%N else c.

Definition lower (s : str) : str := map to_lower s.

Fixpoint title_from (previous_is_cased : bool) (s : str) : str :=
  match s with
  | [] => []
  | c :: s' =>
      (if previous_is_cased then to_lower c else to_upper c)
        :: title_from (is_upper c || is_lower c) s'
  end.

Definition title (s : str) : str := title_from false s.

(** ASCII is kept; a few accented Latin letters lose their accent; anything
    else is dropped. *)
Definition entry (c : N) (plain : string) : char * string := (c, plain).

Definition unidecode_table : list (char * string) :=
  [ entry 225 "a"; entry 233 "e"; entry 237 "i"; entry 243 "o"; entry 250 "u";
    entry 253 "y"; entry 228 "a"; entry 246 "o"; entry 252 "u"; entry 241 "n";
    entry 231 "c"; entry 269 "c"; entry 283 "e"; entry 345 "r"; entry 353 "s";
    entry 367 "u"; entry 382 "z" ].

Fixpoint table_find (c : char) (t : list (char * string)) : str :=
  match t with
  | [] => []
  | (k, v) :: t' => if (c =? k)%N then lit v else table_find c t'
  end.

Definition unidecode (s : str) : str :=
  flat_map (fun c => if (c <? 128)%N then [c] else table_find c unidecode_table) s.

Definition decimal (z : Z) : str :=
  lit (DecimalString.NilZero.string_of_int (Z.to_int z)).

Definition quote (q : char) (s : str) : str := q :: s ++ [q].

(** [str(v)]; inside a list or a dict a str is shown between single quotes
    (without the escapes [repr] would add). *)
Fixpoint py_repr (top : bool) (v : json) : str :=
  match v with
  | JNull => lit "None"
  | JBool true => lit "True"
  | JBool false => lit "False"
  | JInt z => decimal z
  | JFloat lexeme => lexeme
  | JStr s => if top then s else quote 39%N s
  | JArr items => lit "[" ++ join (lit ", ") (map (py_repr false) items) ++ lit "]"
  | JObj fields =>
      lit "{"
      ++ join (lit ", ")
           (map (fun kv => quote 39%N (fst kv) ++ lit ": " ++ py_repr false (snd kv)) fields)
      ++ lit "}"
  end.

Definition py_str (v : json) : str := py_repr true v.

(** *** [json.dumps] *)

Definition hex_digit (n : N) : char :=
  (if n <? 10 then 48 + n else 87 + n)%N.

Definition u_escape (c : N) : str :=
  [92; 117; hex_digit (c / 4096 mod 16); hex_digit (c / 256 mod 16);
   hex_digit (c / 16 mod 16); hex_digit (c mod 16)]%N.

Definition escape_char (c : char) : str :=
  (if c =? 34 then [92; 34]
   else if c =? 92 then [92; 92]
   else if c =? 10 then [92; 110]
   else if c =? 13 then [92; 114]
   else if c =? 9 then [92; 116]
   else if c =? 8 then [92; 98]
   else if c =? 12 then [92; 102]
   else if (32 <=? c) && (c <=? 126) then [c]
   else if c <? 65536 then u_escape c
   else u_escape (55296 + (c - 65536) / 1024) ++ u_escape (56320 + (c - 65536) mod 1024))%N.

Definition dumps_str (s : str) : str := quote 34%N (flat_map escape_char s).

Fixpoint json_dumps (v : json) : str :=
  match v with
  | JNull => lit "null"
  | JBool true => lit "true"
  | JBool false => lit "false"
  | JInt z => decimal z
  | JFloat lexeme => lexeme
  | JStr s => dumps_str s
  | JArr items => lit "[" ++ join (lit ", ") (map json_dumps items) ++ lit "]"
  | JObj fields =>
      lit "{"
      ++ join (lit ", ")
           (map (fun kv => dumps_str (fst kv) ++ lit ": " ++ json_dumps (snd kv)) fields)
      ++ lit "}"
  end.

(** *** [json.loads] *)

Definition is_ws (c : char) : bool :=
  ((c =? 32) || (c =? 9) || (c =? 10) || (c =? 13))%N.

Fixpoint skip_ws (s : str) : str :=
  match s with
  | c :: s' => if is_ws c then skip_ws s' else s
  | [] => []
  end.

Definition is_digit (c : char) : bool := ((48 <=? c) && (c <=? 57))%N.

Definition hex_value (c : char) : option N :=
  (if is_digit c then Some (c - 48)
   else if (97 <=? c) && (c <=? 102) then Some (c - 87)
   else if (65 <=? c) && (c <=? 70) then Some (c - 55)
   else None)%N.

Definition hex4 (a b c d : char) : option N :=
  match hex_value a, hex_value b, hex_value c, hex_value d with
  | Some x, Some y, Some z, Some w => Some (x * 4096 + y * 256 + z * 16 + w)%N
  | _, _, _, _ => None
  end.

Definition simple_escape (e : char) : option char :=
  (if e =? 34 then Some 34
   else if e =? 92 then Some 92
   else if e =? 47 then Some 47
   else if e =? 98 then Some 8
   else if e =? 102 then Some 12
   else if e =? 110 then Some 10
   else if e =? 114 then Some 13
   else if e =? 116 then Some 9
   else None)%N.

Definition push (c : char) (r : option (str * str)) : option (str * str) :=
  match r with
  | Some (body, rest) => Some (c :: body, rest)
  | None => None
  end.

(** A [\uXXXX] escape at the head of [s] that encodes a low surrogate. *)
Definition low_surrogate_escape (s : str) : option (N * str) :=
  match s with
  | bs :: u :: a :: b :: c :: d :: rest =>
      if ((bs =? 92) && (u =? 117))%N then
        match hex4 a b c d with
        | Some lo => if ((56320 <=? lo) && (lo <=? 57343))%N then Some (lo, rest) else None
        | None => None
        end
      else None
  | _ => None
  end.

(** The body of a string literal, after its opening quote, with the text
    that follows the closing quote. *)
Fixpoint scan_string (s : str) : option (str * str) :=
  match s with
  | [] => None
  | c :: s1 =>
      if (c =? 34)%N then Some ([], s1)
      else if (c =? 92)%N then
        match s1 with
        | [] => None
        | e :: s2 =>
            if (e =? 117)%N then
              match s2 with
              | a :: b :: c' :: d :: s3 =>
                  match hex4 a b c' d with
                  | None => None
                  | Some hi =>
                      if ((55296 <=? hi) && (hi <=? 56319))%N then
                        match s3 with
                        | bs :: u :: a2 :: b2 :: c2 :: d2 :: s4 =>
                            match low_surrogate_escape s3 with
                            | Some (lo, _) =>
                                push (65536 + (hi - 55296) * 1024 + (lo - 56320))%N
                                     (scan_string s4)
                            | None => push hi (scan_string s3)
                            end
                        | _ => push hi (scan_string s3)
                        end
                      else push hi (scan_string s3)
                  end
              | _ => None
              end
            else
              match simple_escape e with
              | Some x => push x (scan_string s2)
              | None => None
              end
        end
      else if (c <? 32)%N then None
      else push c (scan_string s1)
  end.

Fixpoint span_digits (s : str) : str * str :=
  match s with
  | c :: s' =>
      if is_digit c then let (ds, rest) := span_digits s' in (c :: ds, rest)
      else ([], s)
  | [] => ([], [])
  end.

Definition digits_value (ds : str) : Z :=
  fold_left (fun acc c => (acc * 10 + Z.of_N (c - 48))%Z) ds 0%Z.

(** The integer part of a number: [0], or a non-zero digit and more
    digits. *)
Definition scan_int_part (s : str) : option (str * str) :=
  match s with
  | c :: s' =>
      if (c =? 48)%N then Some ([c], s')
      else if is_digit c then let (ds, rest) := span_digits s' in Some (c :: ds, rest)
      else None
  | [] => None
  end.

Definition scan_fraction (s : str) : str * str :=
  match s with
  | dot :: s' =>
      if (dot =? 46)%N then
        match span_digits s' with
        | ([], _) => ([], s)
        | (ds, rest) => (dot :: ds, rest)
        end
      else ([], s)
  | [] => ([], s)
  end.

Definition scan_exponent (s : str) : str * str :=
  match s with
  | e :: s' =>
      if ((e =? 101) || (e =? 69))%N then
        match s' with
        | sign :: s'' =>
            if ((sign =? 43) || (sign =? 45))%N then
              match span_digits s'' with
              | ([], _) => ([], s)
              | (ds, rest) => (e :: sign :: ds, rest)
              end
            else
              match span_digits s' with
              | ([], _) => ([], s)
              | (ds, rest) => (e :: ds, rest)
              end
        | [] => ([], s)
        end
      else ([], s)
  | [] => ([], s)
  end.

Definition scan_number (s : str) : option (json * str) :=
  let (negative, s0) :=
    match s with
    | c :: s' => if (c =? 45)%N then (true, s') else (false, s)
    | [] => (false, s)
    end in
  match scan_int_part s0 with
  | None => None
  | Some (int_part, s1) =>
      let (frac, s2) := scan_fraction s1 in
      let (expo, s3) := scan_exponent s2 in
      match frac, expo with
      | [], [] =>
          Some (JInt (if negative then - digits_value int_part else digits_value int_part)%Z,
                s3)
      | _, _ =>
          Some (JFloat ((if negative then [45%N] else []) ++ int_part ++ frac ++ expo), s3)
      end
  end.

Definition after_word (w : string) (s : str) : str := skipn (String.length w) s.

Definition scan_keyword (s : str) : option (json * str) :=
  if startswith (lit "null") s then Some (JNull, after_word "null" s)
  else if startswith (lit "true") s then Some (JBool true, after_word "true" s)
  else if startswith (lit "false") s then Some (JBool false, after_word "false" s)
  else if startswith (lit "NaN") s then Some (JFloat (lit "NaN"), after_word "NaN" s)
  else if startswith (lit "Infinity") s
  then Some (JFloat (lit "Infinity"), after_word "Infinity" s)
  else if startswith (lit "-Infinity") s
  then Some (JFloat (lit "-Infinity"), after_word "-Infinity" s)
  else None.

(** A dict keeps one value per key: a repeated key overwrites the value at
    the key's first position. *)
Fixpoint dict_set (k : str) (v : json) (fields : list (str * json)) : list (str * json) :=
  match fields with
  | [] => [(k, v)]
  | (k', v') :: rest =>
      if str_eqb k k' then (k', v) :: rest else (k', v') :: dict_set k v rest
  end.

(** One value at the head of [s] (no leading whitespace), with the text
    after it.  [scan_items] and [scan_members] continue an array or an object
    after its opening bracket and leading whitespace. *)
Fixpoint scan_value (fuel : nat) (s : str) : option (json * str) :=
  match fuel with
  | O => None
  | S fuel' =>
      match s with
      | [] => None
      | c :: s' =>
          if (c =? 34)%N then
            match scan_string s' with
            | Some (body, rest) => Some (JStr body, rest)
            | None => None
            end
          else if (c =? 91)%N then
            match skip_ws s' with
            | c1 :: rest1 =>
                if (c1 =? 93)%N then Some (JArr [], rest1)
                else
                  match scan_items fuel' (c1 :: rest1) with
                  | Some (items, rest) => Some (JArr items, rest)
                  | None => None
                  end
            | [] => None
            end
          else if (c =? 123)%N then
            match skip_ws s' with
            | c1 :: rest1 =>
                if (c1 =? 125)%N then Some (JObj [], rest1)
                else
                  match scan_members fuel' [] (c1 :: rest1) with
                  | Some (fields, rest) => Some (JObj fields, rest)
                  | None => None
                  end
            | [] => None
            end
          else
            match scan_keyword s with
            | Some r => Some r
            | None => scan_number s
            end
      end
  end
with scan_items (fuel : nat) (s : str) : option (list json * str) :=
  match fuel with
  | O => None
  | S fuel' =>
      match scan_value fuel' s with
      | None => None
      | Some (v, rest) =>
          match skip_ws rest with
          | c :: rest' =>
              if (c =? 93)%N then Some ([v], rest')
              else if (c =? 44)%N then
                match scan_items fuel' (skip_ws rest') with
                | Some (vs, rest'') => Some (v :: vs, rest'')
                | None => None
                end
              else None
          | [] => None
          end
      end
  end
with scan_members (fuel : nat) (seen : list (str * json)) (s : str)
  : option (list (str * json) * str) :=
  match fuel with
  | O => None
  | S fuel' =>
      match s with
      | q :: s' =>
          if (q =? 34)%N then
            match scan_string s' with
            | None => None
            | Some (key, rest) =>
                match skip_ws rest with
                | colon :: rest1 =>
                    if (colon =? 58)%N then
                      match scan_value fuel' (skip_ws rest1) with
                      | None => None
                      | Some (v, rest2) =>
                          let seen' := dict_set key v seen in
                          match skip_ws rest2 with
                          | c :: rest3 =>
                              if (c =? 125)%N then Some (seen', rest3)
                              else if (c =? 44)%N then scan_members fuel' seen' (skip_ws rest3)
                              else None
                          | [] => None
                          end
                      end
                    else None
                | [] => None
                end
            end
          else None
      | [] => None
      end
  end.

(** [json.loads(s)]: one value between optional whitespace, and nothing
    else. *)
Definition json_loads (s : str) : option json :=
  match scan_value (2 * List.length s + 2) (skip_ws s) with
  | Some (v, rest) =>
      match skip_ws rest with
      | [] => Some v
      | _ :: _ => None
      end
  | None => None
  end.

Definition runtime : Runtime :=
  Build_Runtime lower title unidecode py_str json_loads json_dumps.

End PlainPy.

(** ** Inputs used to run the model *)

Definition a_run (n : nat) : str := repeat 97%N n.

(** No title can be fetched exactly; the search for the name returns one
    title, and fetching it reports an ambiguous title. *)
Definition ambiguous_net : Services := {|
  wiki_page := fun t auto_suggest =>
    if auto_suggest
    then Raise (DisambiguationError [lit "Mercury (planet)"; lit "Mercury (element)"]
                                    (lit "may refer to"))
    else Raise (PageError (lit "no match"));
  wiki_search := fun q => Ok [lit "Mercury"];
  http_get_text := fun url => Raise (OtherError (lit "ConnectionError") (lit "offline"));
  chat_completion := fun msgs => Raise (OtherError (lit "APIError") (lit "offline"))
|}.

(** The tool result for a name of 600 letters that has no article. *)
Definition long_not_found : str :=
  PlainPy.json_dumps (not_found_payload (JStr (a_run 600))).

Definition new_york_page : page := {|
  page_title := lit "New York";
  page_url := lit "https://en.wikipedia.org/wiki/New_York";
  page_content := lit "New York is a state in the northeastern United States.";
  page_categories := Ok [lit "States of the United States"]
|}.

(** Only the exact title [New York] has an article. *)
Definition new_york_net : Services := {|
  wiki_page := fun t auto_suggest =>
    if str_eqb t (lit "New York") then Ok new_york_page
    else Raise (PageError (lit "no match"));
  wiki_search := fun q => Ok [];
  http_get_text := fun url => Raise (OtherError (lit "ConnectionError") (lit "offline"));
  chat_completion := fun msgs => Raise (OtherError (lit "APIError") (lit "offline"))
|}.

Definition paris_page (t : string) (cats : list str) : page := {|
  page_title := lit t;
  page_url := lit "https://en.wikipedia.org/wiki/" ++ replace_space_hyphen (lit t);
  page_content := lit t;
  page_categories := Ok cats
|}.

(** No exact title matches; the search returns three titles, of which the
    second cannot be fetched. *)
Definition paris_net : Services := {|
  wiki_page := fun t auto_suggest =>
    if negb auto_suggest then Raise (PageError (lit "no match"))
    else if str_eqb t (lit "Paris, Texas")
    then Ok (paris_page "Paris, Texas" [lit "Cities in Texas"])
    else if str_eqb t (lit "Paris (mythology)")
    then Raise (OtherError (lit "HTTPTimeoutError") (lit "timeout"))
    else if str_eqb t (lit "Paris, Kentucky")
    then Ok (paris_page "Paris, Kentucky" [lit "Cities in Kentucky"])
    else Raise (PageError (lit "no match"));
  wiki_search := fun q =>
    Ok [lit "Paris, Texas"; lit "Paris (mythology)"; lit "Paris, Kentucky"];
  http_get_text := fun url => Raise (OtherError (lit "ConnectionError") (lit "offline"));
  chat_completion := fun msgs => Raise (OtherError (lit "APIError") (lit "offline"))
|}.

(** The transcript [main] starts with, its system prompt shortened. *)
Definition main_messages : list message :=
  [ Plain (lit "system") (Some (lit "You are a helpful AI assistant."));
    Plain (lit "user") (Some (lit "Tell me some facts about my location?")) ].

Definition start : state := {| messages := main_messages; trace := [] |}.

Definition offline {A} (kind : string) : result A :=
  Raise (OtherError (lit kind) (lit "offline")).

Definition call (id name : string) (arguments : str) : tool_call :=
  {| tc_id := lit id;
     tc_function := {| fn_name := lit name; fn_arguments := JStr arguments |} |}.

(** An LLM that answers every request with neither text nor tool calls. *)
Definition silent_net : Services := {|
  wiki_page := fun t auto_suggest => offline "HTTPTimeoutError";
  wiki_search := fun q => offline "HTTPTimeoutError";
  http_get_text := fun url => offline "ConnectionError";
  chat_completion := fun msgs => Ok {| rm_content := None; rm_tool_calls := [] |}
|}.

(** An LLM that answers every request by asking for a tool outside the
    catalog. *)
Definition weather_call : tool_call := call "call_1" "get_weather" (lit "{}").

Definition weather_net : Services := {|
  wiki_page := fun t auto_suggest => offline "HTTPTimeoutError";
  wiki_search := fun q => offline "HTTPTimeoutError";
  http_get_text := fun url => offline "ConnectionError";
  chat_completion := fun msgs => Ok {| rm_content := None; rm_tool_calls := [weather_call] |}
|}.

(** An LLM that asks for the facts of a city with the bare name as the
    argument payload, which is not JSON. *)
Definition bare_call : tool_call := call "call_1" "get_location_info" (lit "Prague").

Definition bare_net : Services := {|
  wiki_page := fun t auto_suggest => offline "HTTPTimeoutError";
  wiki_search := fun q => offline "HTTPTimeoutError";
  http_get_text := fun url => offline "ConnectionError";
  chat_completion := fun msgs => Ok {| rm_content := None; rm_tool_calls := [bare_call] |}
|}.

(** An LLM that asks, in one round, for the facts of Prague and then for the
    public IP; the article exists under the exact title. *)
Definition prague_page : page := {|
  page_title := lit "Prague";
  page_url := lit "https://en.wikipedia.org/wiki/Prague";
  page_content := lit "Prague is the capital of the Czech Republic."
                  ++ [NEWLINE; NEWLINE] ++ lit "History";
  page_categories := Ok [lit "Capitals in Europe"]
|}.

Definition prague_call : tool_call :=
  call "call_1" "get_location_info"
       (PlainPy.json_dumps (JObj [(lit "name", JStr (lit "Prague"))])).

Definition ip_call : tool_call := call "call_2" "get_public_ip" (lit "{}").

Definition prague_response : response_message :=
  {| rm_content := None; rm_tool_calls := [prague_call; ip_call] |}.

Definition prague_net : Services := {|
  wiki_page := fun t auto_suggest =>
    if str_eqb t (lit "Prague") then Ok prague_page else Raise (PageError (lit "no match"));
  wiki_search := fun q => Ok [];
  http_get_text := fun url => Ok (lit "203.0.113.7");
  chat_completion := fun msgs => Ok prague_response
|}.

Definition prague_facts : str :=
  PlainPy.json_dumps (found_payload (JStr (lit "Prague")) prague_page).

Definition prague_summary : str :=
  lit "Prague: Prague is the capital of the Czech Republic. Source: https://en.wikipedia.org/wiki/Prague".

(** ** Vocabulary of the statements *)

(** The pages the second loop of [__resolve_city_page] fetches, in order:
    the results whose autocorrected lookup succeeds. *)
Fixpoint fetched (net : Services) (results : list str) : list page :=
  match results with
  | [] => []
  | r :: rest =>
      match wiki_page net r true with
      | Ok p => p :: fetched net rest
      | Raise _ => fetched net rest
      end
  end.

(** The second loop as a scan of the pages it fetched. *)
Fixpoint best_of (py : Runtime) (raw ascii_name : str) (pages : list page)
         (best_page : option page) (best_score : Z) : option page :=
  match pages with
  | [] => best_page
  | p :: rest =>
      if (best_score <? score py raw ascii_name p)%Z
      then best_of py raw ascii_name rest (Some p) (score py raw ascii_name p)
      else best_of py raw ascii_name rest best_page best_score
  end.

(** The number of requests sent to the LLM, and the transcripts sent. *)
Fixpoint llm_rounds (t : list event) : nat :=
  match t with
  | [] => 0
  | LLMRequest _ :: t' => S (llm_rounds t')
  | _ :: t' => llm_rounds t'
  end.

Fixpoint snapshots (t : list event) : list (list message) :=
  match t with
  | [] => []
  | LLMRequest sent :: t' => sent :: snapshots t'
  | _ :: t' => snapshots t'
  end.

(** [later] is [earlier] with messages added at its end. *)
Definition extends (earlier later : list message) : Prop :=
  exists appended, later = earlier ++ appended.

(** Each transcript of [snaps] extends the one before it, the first extends
    [start], and [final] extends the last. *)
Fixpoint chain (start : list message) (snaps : list (list message))
         (final : list message) : Prop :=
  match snaps with
  | [] => extends start final
  | s :: rest => extends start s /\ chain s rest final
  end.

(** The state in which a round's tool calls are dispatched: the request has
    been sent and the assistant message recording the calls appended. *)
Definition dispatching (st : state) (response : response_message) : state := {|
  messages := messages st
              ++ [AssistantCalls (rm_content response) (rm_tool_calls response)];
  trace := trace st ++ [LLMRequest (messages st)]
|}.

(** A round that asks for tools, runs all of them without an exception and
    meets no [get_location_info] among them. *)
Definition round_proceeds (py : Runtime) (net : Services) (st : state) : Prop :=
  exists response st',
    chat_completion net (messages st) = Ok response
    /\ rm_tool_calls response <> []
    /\ dispatch py net (rm_tool_calls response) (dispatching st response) = (Ok None, st').

(** What a tool dispatch does to the state: the transcript is untouched and
    the trace grows by events that are not LLM requests. *)
Definition quiet (st st' : state) : Prop :=
  exists events, trace st' = trace st ++ events /\ snapshots events = [].

Definition tool_message (tc : tool_call) (tool_response : str) : message :=
  ToolResult (tc_id tc) (fn_name (tc_function tc)) tool_response.

Definition with_messages (st : state) (added : list message) : state :=
  {| messages := messages st ++ added; trace := trace st |}.

(** ** The tool catalog ([__tools]) *)

Definition string_parameter (description : string) : json :=
  JObj [(lit "type", JStr (lit "string")); (lit "description", JStr (lit description))].

(** One entry of the list [__tools] returns. *)
Definition tool_entry (name description : string) (properties : list (str * json))
           (required : list string) : json :=
  JObj [(lit "type", JStr (lit "function"));
        (lit "name", JStr (lit name));
        (lit "description", JStr (lit description));
        (lit "parameters",
         JObj [(lit "type", JStr (lit "object"));
               (lit "properties", JObj properties);
               (lit "required", JArr (map (fun r => JStr (lit r)) required))])].

Definition tools : list json :=
  [ tool_entry "get_public_ip" "Get the public IP address of the user." [] [];
    tool_entry "get_location" "Get city location based on public user IP address."
      [(lit "ip_address", string_parameter "The public IP address of the user.")]
      ["ip_address"%string];
    tool_entry "get_location_info" "Get facts about city"
      [(lit "name", string_parameter "The name of the city.")]
      ["name"%string] ].

(** The names the catalog advertises. *)
Definition tool_names : list str :=
  flat_map (fun entry => match py_get entry "name" JNull with
                         | Ok (JStr name) => [name]
                         | _ => []
                         end) tools.

(** The value a dict of arguments gives for a key: [arguments.get(key)]. *)
Definition argument (fields : list (str * json)) (key : string) : json :=
  match assoc (lit key) fields with
  | Some v => v
  | None => JNull
  end.

(** The tool results a run of the loop body appends for [calls], given what
    each call returned. *)
Definition tool_results (calls : list tool_call) (responses : list str) : list message :=
  map (fun cr => tool_message (fst cr) (snd cr)) (combine calls responses).

(** The run the system prompt asks for: the public IP in the first round,
    the location of that IP in the second, the facts of the city in the
    third.  The LLM is scripted by the length of the transcript it is sent. *)
Definition where_ip : str := lit "203.0.113.7".

Definition where_location : str :=
  PlainPy.json_dumps (JObj [(lit "status", JStr (lit "success")); (lit "city", JStr (lit "Prague"))]).

Definition where_net : Services := {|
  wiki_page := fun t auto_suggest =>
    if str_eqb t (lit "Prague") then Ok prague_page else Raise (PageError (lit "no match"));
  wiki_search := fun q => Ok [];
  http_get_text := fun url =>
    if str_eqb url (lit "https://ifconfig.me/ip") then Ok (where_ip ++ [NEWLINE])
    else if str_eqb url (lit "http://ip-api.com/json/" ++ where_ip) then Ok where_location
    else offline "ConnectionError";
  chat_completion := fun msgs =>
    match List.length msgs with
    | 2 => Ok {| rm_content := None; rm_tool_calls := [ip_call] |}
    | 4 => Ok {| rm_content := None;
                 rm_tool_calls :=
                   [call "call_3" "get_location"
                         (PlainPy.json_dumps (JObj [(lit "ip_address", JStr where_ip)]))] |}
    | 6 => Ok {| rm_content := None; rm_tool_calls := [prague_call] |}
    | _ => offline "APIError"
    end
|}.

(** A string with no whitespace at either end. *)
Definition starts_clean (s : str) : Prop :=
  match s with
  | [] => True
  | c :: _ => isspace c = false
  end.

Definition trimmed (s : str) : Prop := starts_clean s /\ starts_clean (rev s).

(** The event a catalog tool leaves in the trace for a dict of arguments. *)
Definition integration_event (tool_name : str) (fields : list (str * json)) : event :=
  if str_eqb tool_name GET_PUBLIC_IP then PublicIpLookup
  else if str_eqb tool_name GET_LOCATION then LocationLookup (argument fields "ip_address")
  else FactsLookup (argument fields "name").

(** No title can be fetched and the full-text search raises [e]. *)
Definition failing_search_net (e : exn) : Services := {|
  wiki_page := fun t auto_suggest => Raise (PageError (lit "no match"));
  wiki_search := fun q => Raise e;
  http_get_text := fun url => offline "ConnectionError";
  chat_completion := fun msgs => offline "APIError"
|}.

(** An LLM whose client raises. *)
Definition down_net : Services := {|
  wiki_page := fun t auto_suggest => offline "HTTPTimeoutError";
  wiki_search := fun q => offline "HTTPTimeoutError";
  http_get_text := fun url => offline "ConnectionError";
  chat_completion := fun msgs => offline "APIError"
|}.

(** An LLM that asks for an unknown tool and then for the public IP, while
    the IP service is down. *)
Definition ip_down_response : response_message :=
  {| rm_content := None; rm_tool_calls := [weather_call; ip_call] |}.

Definition ip_down_net : Services := {|
  wiki_page := fun t auto_suggest => offline "HTTPTimeoutError";
  wiki_search := fun q => offline "HTTPTimeoutError";
  http_get_text := fun url => offline "ConnectionError";
  chat_completion := fun msgs => Ok ip_down_response
|}.

(** A facts call whose arguments are a dict without the [name] key. *)
Definition nameless_call : tool_call := call "call_1" "get_location_info" (lit "{}").

(** A location call whose arguments are a dict without the [ip_address]
    key; the service answers with a body framed by whitespace. *)
Definition ipless_call : tool_call := call "call_1" "get_location" (lit "{}").

Definition echo_net : Services := {|
  wiki_page := fun t auto_suggest => offline "HTTPTimeoutError";
  wiki_search := fun q => offline "HTTPTimeoutError";
  http_get_text := fun url => Ok (lit " " ++ url ++ [NEWLINE]);
  chat_completion := fun msgs => offline "APIError"
|}.

(** ** Vocabulary of the loop's rounds *)

(** [proceeds k st st_k]: from [st], [k] rounds in a row each get a response
    that asks for tools, and run all of its calls to the end of the loop
    body (none raises, none is [get_location_info]); [st_k] is the state the
    last of them leaves. *)
Fixpoint proceeds (py : Runtime) (net : Services) (k : nat) (st st_k : state) : Prop :=
  match k with
  | O => st_k = st
  | S k' =>
      exists response st1,
        chat_completion net (messages st) = Ok response
        /\ rm_tool_calls response <> []
        /\ dispatch py net (rm_tool_calls response) (dispatching st response) = (Ok None, st1)
        /\ proceeds py net k' st1 st_k
  end.

(** [round_ends st out st']: the round entered in [st] ends the run with
    [out], leaving [st'].  The LLM call raises; or the response asks for no
    tool and its content is the answer; or a facts lookup among its calls
    gives the summary; or one of its calls, or the summarizer, raises. *)
Definition round_ends (py : Runtime) (net : Services)
           (st : state) (out : result (option str)) (st' : state) : Prop :=
  (exists e,
      chat_completion net (messages st) = Raise e
      /\ out = Raise e
      /\ st' = {| messages := messages st; trace := trace st ++ [LLMRequest (messages st)] |})
  \/ (exists response,
         chat_completion net (messages st) = Ok response
         /\ rm_tool_calls response = []
         /\ out = Ok (rm_content response)
         /\ st' = {| messages := messages st
                                 ++ [Plain (lit "assistant") (rm_content response)];
                     trace := trace st ++ [LLMRequest (messages st)] |})
  \/ (exists response summary,
         chat_completion net (messages st) = Ok response
         /\ dispatch py net (rm_tool_calls response) (dispatching st response)
            = (Ok (Some summary), st')
         /\ out = Ok (Some summary))
  \/ (exists response e,
         chat_completion net (messages st) = Ok response
         /\ rm_tool_calls response <> []
         /\ dispatch py net (rm_tool_calls response) (dispatching st response) = (Raise e, st')
         /\ out = Raise e).

(** The arguments of the calls to [messages.append] that the loop over a
    round's calls makes from [st], in the order in which it makes them (lines
    242 and 251): the result of each call as [__execute_tool] returned it,
    up to the first call that raises, and the summary after the result of a
    facts lookup. *)
Fixpoint dispatch_appends (py : Runtime) (net : Services)
         (calls : list tool_call) (st : state) : list message :=
  match calls with
  | [] => []
  | tc :: rest =>
      match execute_tool py net tc st with
      | (Ok tool_response, st1) =>
          tool_message tc tool_response
          :: (if str_eqb (fn_name (tc_function tc)) GET_LOCATION_INFO then
                match summarize_location_facts py tool_response with
                | Ok summary => [Plain (lit "assistant") (Some summary)]
                | Raise _ => []
                end
              else dispatch_appends py net rest
                     (with_messages st1 [tool_message tc tool_response]))
      | (Raise _, _) => []
      end
  end.

(** The arguments of the calls to [messages.append] that [rounds] rounds of
    the loop make from [st], in order (lines 225, 242, 251 and 256). *)
Fixpoint run_appends (py : Runtime) (net : Services)
         (rounds : nat) (st : state) : list message :=
  match rounds with
  | O => []
  | S rounds' =>
      match chat_completion net (messages st) with
      | Raise _ => []
      | Ok response =>
          match rm_tool_calls response with
          | [] => [Plain (lit "assistant") (rm_content response)]
          | _ :: _ =>
              AssistantCalls (rm_content response) (rm_tool_calls response)
              :: dispatch_appends py net (rm_tool_calls response) (dispatching st response)
              ++ match dispatch py net (rm_tool_calls response) (dispatching st response) with
                 | (Ok None, st1) => run_appends py net rounds' st1
                 | _ => []
                 end
          end
      end
  end.

(** [executes calls st responses st']: the calls are dispatched one after
    the other from [st]; each returns its response, which is appended as its
    tool result before the next call is dispatched; [st'] is the state after
    the last of them. *)
Inductive executes (py : Runtime) (net : Services)
  : list tool_call -> state -> list str -> state -> Prop :=
| executes_nil (st : state) : executes py net [] st [] st
| executes_cons (tc : tool_call) (rest : list tool_call) (st st1 st' : state)
                (r : str) (rs : list str) :
    execute_tool py net tc st = (Ok r, st1) ->
    executes py net rest (with_messages st1 [tool_message tc r]) rs st' ->
    executes py net (tc :: rest) st (r :: rs) st'.

(** An LLM that asks for an unknown tool as long as the transcript has at
    most ten messages, and answers with text after that: from the two
    messages of [start] it asks for the tool in each of the five rounds. *)
Definition patient_net : Services := {|
  wiki_page := fun t auto_suggest => offline "HTTPTimeoutError";
  wiki_search := fun q => offline "HTTPTimeoutError";
  http_get_text := fun url => offline "ConnectionError";
  chat_completion := fun msgs =>
    if (List.length msgs <=? 10)%nat
    then Ok {| rm_content := None; rm_tool_calls := [weather_call] |}
    else Ok {| rm_content := Some (lit "Here is what I found."); rm_tool_calls := [] |}
|}.

(** An LLM that asks for an unknown tool in the first two rounds and
    answers with text in the third. *)
Definition third_round_net : Services := {|
  wiki_page := fun t auto_suggest => offline "HTTPTimeoutError";
  wiki_search := fun q => offline "HTTPTimeoutError";
  http_get_text := fun url => offline "ConnectionError";
  chat_completion := fun msgs =>
    if (List.length msgs <=? 4)%nat
    then Ok {| rm_content := None; rm_tool_calls := [weather_call] |}
    else Ok {| rm_content := Some (lit "Here is what I found."); rm_tool_calls := [] |}
|}.

Unset Implicit Arguments.

(** ** Properties of the string functions *)

Lemma rsplit_space_spec (s : str) :
  (List.length (fst (rsplit_space s)) <= List.length s)%nat
  /\ (snd (rsplit_space s) = true -> (List.length (fst (rsplit_space s)) < List.length s)%nat)
  /\ (In SPACE s -> snd (rsplit_space s) = true).
Proof.
  induction s as [|c s IH]; simpl.
  - repeat split; auto; try discriminate; try (intros []).
  - destruct (rsplit_space s) as [r found] eqn:E; simpl in IH.
    destruct IH as (Hle & Hlt & Hin).
    destruct found; simpl.
    + repeat split; auto; lia || (intros _; specialize (Hlt eq_refl); lia).
    + destruct (N.eqb_spec c SPACE) as [->|Hc]; simpl.
      * repeat split; auto; lia.
      * repeat split; try lia; try discriminate.
        intros [Hc'|Hs]; [congruence | auto].
Qed.

Lemma excerpt_length_le_501 (content : str) :
  (List.length (excerpt_of content) <= 501)%nat.
Proof.
  unfold excerpt_of.
  set (e := strip (split_first [NEWLINE; NEWLINE] content)).
  destruct (Nat.ltb_spec 500 (List.length e)) as [H|H]; [|lia].
  rewrite length_app; change (List.length [ELLIPSIS]) with 1%nat.
  pose proof (proj1 (rsplit_space_spec (firstn 500 e))) as Hle.
  unfold rsplit_space_head.
  pose proof (firstn_le_length 500 e). lia.
Qed.

(** With a space among its first 500 characters the truncated excerpt fits
    in 500 characters. *)
Lemma excerpt_length_with_space (content : str) :
  In SPACE (firstn 500 (strip (split_first [NEWLINE; NEWLINE] content))) ->
  (List.length (excerpt_of content) <= 500)%nat.
Proof.
  intros Hin. unfold excerpt_of.
  set (e := strip (split_first [NEWLINE; NEWLINE] content)) in *.
  destruct (Nat.ltb_spec 500 (List.length e)) as [H|H]; [|lia].
  rewrite length_app; change (List.length [ELLIPSIS]) with 1%nat.
  destruct (rsplit_space_spec (firstn 500 e)) as (_ & Hlt & Hfound).
  specialize (Hlt (Hfound Hin)).
  unfold rsplit_space_head.
  pose proof (firstn_le_length 500 e). lia.
Qed.

(** C6, at the failing input: an article whose first paragraph is 501
    letters with no space.  The excerpt is the first 500 letters followed by
    the ellipsis: 501 characters, cut inside the word. *)
Theorem excerpt_without_space_is_501 :
  excerpt_of (a_run 501) = a_run 500 ++ [ELLIPSIS]
  /\ List.length (excerpt_of (a_run 501)) = 501%nat.
Proof. split; vm_compute; reflexivity. Qed.

Example rsplit_keeps_text_before_last_space :
  rsplit_space_head (lit "ab cd ef") = lit "ab cd"
  /\ rsplit_space_head (lit "abcdef") = lit "abcdef".
Proof. split; reflexivity. Qed.

Example split_first_paragraph :
  split_first [NEWLINE; NEWLINE] (lit "one" ++ [NEWLINE] ++ lit "two" ++ [NEWLINE; NEWLINE] ++ lit "three")
  = lit "one" ++ [NEWLINE] ++ lit "two".
Proof. reflexivity. Qed.

Example excerpt_short_paragraph :
  excerpt_of (lit "  Prague is a city. " ++ [NEWLINE; NEWLINE] ++ lit "More.")
  = lit "Prague is a city.".
Proof. vm_compute. reflexivity. Qed.

(** A long paragraph of words is cut before the last word that starts
    within the first 500 characters. *)
Example excerpt_long_paragraph :
  excerpt_of (List.concat (repeat (lit "word ") 120))
  = List.concat (repeat (lit "word ") 99) ++ lit "word" ++ [ELLIPSIS]
  /\ List.length (excerpt_of (List.concat (repeat (lit "word ") 120))) = 500.
Proof. split; vm_compute; reflexivity. Qed.

Example fromkeys_keeps_first_occurrences :
  fromkeys [lit "a"; lit "b"; lit "a"; lit "c"; lit "b"] = [lit "a"; lit "b"; lit "c"].
Proof. reflexivity. Qed.

Example loads_inverts_dumps_on_prague_facts :
  PlainPy.json_loads prague_facts = Some (found_payload (JStr (lit "Prague")) prague_page)
  /\ PlainPy.json_loads (lit "Prague") = None
  /\ PlainPy.json_loads (lit "[1, 2,]") = None
  /\ PlainPy.json_loads (lit " [1, -2, 3.5e2, true, null] ")
     = Some (JArr [JInt 1; JInt (-2); JFloat (lit "3.5e2"); JBool true; JNull]).
Proof. repeat split; vm_compute; reflexivity. Qed.

Lemma existsb_str_eqb (x : str) (seen : list str) :
  existsb (str_eqb x) seen = true <-> In x seen.
Proof.
  rewrite existsb_exists. unfold str_eqb. split.
  - intros (y & Hy & Heq). destruct (list_eq_dec N.eq_dec x y); congruence.
  - intros Hin. exists x. split; [exact Hin |].
    destruct (list_eq_dec N.eq_dec x x); congruence.
Qed.

Lemma dedup_from_In (l : list str) :
  forall seen x, In x (dedup_from seen l) <-> In x l /\ ~ In x seen.
Proof.
  induction l as [|y l IH]; intros seen x; simpl.
  - tauto.
  - destruct (existsb (str_eqb y) seen) eqn:E.
    + apply existsb_str_eqb in E. rewrite IH. split.
      * tauto.
      * intros [[<-|Hin] Hn]; tauto.
    + assert (Hy : ~ In y seen) by (rewrite <- existsb_str_eqb; congruence).
      simpl. rewrite IH. simpl. split.
      * intros [<-|[Hin Hn]]; tauto.
      * intros [[<-|Hin] Hn]; [tauto |].
        destruct (list_eq_dec N.eq_dec y x); tauto.
Qed.

(** [fromkeys] keeps every element. *)
Lemma fromkeys_In (l : list str) (x : str) : In x l -> In x (fromkeys l).
Proof. intros H. apply dedup_from_In. simpl. tauto. Qed.

Lemma dedup_from_NoDup (l : list str) : forall seen, NoDup (dedup_from seen l).
Proof.
  induction l as [|y l IH]; intros seen; simpl.
  - constructor.
  - destruct (existsb (str_eqb y) seen); [apply IH |].
    constructor; [| apply IH].
    rewrite dedup_from_In. simpl. tauto.
Qed.

(** [fromkeys] leaves no duplicate. *)
Lemma fromkeys_NoDup (l : list str) : NoDup (fromkeys l).
Proof. apply dedup_from_NoDup. Qed.

(** ** The summarizer *)

Section Summarizer.

Variable py : Runtime.

Lemma firstn_length_le {A} (n : nat) (l : list A) : (List.length (firstn n l) <= n)%nat.
Proof. apply firstn_le_length. Qed.

(** The branch taken for a payload without an [error] key: every lookup
    succeeds and the formatted text is cut at 600 characters. *)
Lemma summarize_found_branch (fields : list (str * json)) :
  assoc (lit "error") fields = None ->
  exists text,
    (has_error <- py_in "error" (JObj fields) ;;
     if (has_error : bool) then
       err <- py_getitem (JObj fields) "error" ;;
       if is_str err "disambiguation" then
         options <- py_get (JObj fields) "options" (JArr []) ;;
         first5 <- py_slice 5 options ;;
         opts <- py_join (lit ", ") first5 ;;
         Ok (lit "Multiple possible matches: " ++ opts
             ++ lit ". Please specify more details (country/region).")
       else if is_str err "not_found" then
         requested <- py_get (JObj fields) "requested" JNull ;;
         Ok (lit "I could not find a page for '" ++ py_str py requested
             ++ lit "'. Please check spelling or add country.")
       else
         Ok (lit "Error fetching facts (" ++ py_str py err ++ lit "). Try again later.")
     else
       requested <- py_get (JObj fields) "requested" (JStr (lit "Unknown")) ;;
       title <- py_get (JObj fields) "resolved_title" requested ;;
       excerpt <- py_get (JObj fields) "excerpt" (JStr []) ;;
       url <- py_get (JObj fields) "url" (JStr []) ;;
       Ok (firstn 600 (py_str py title ++ lit ": " ++ py_str py excerpt
                       ++ lit " Source: " ++ py_str py url)))%result
    = Ok (firstn 600 text).
Proof.
  intros Herr. unfold py_in, py_get. rewrite Herr. unfold rbind.
  destruct (assoc (lit "requested") fields), (assoc (lit "resolved_title") fields),
    (assoc (lit "excerpt") fields), (assoc (lit "url") fields); eexists; reflexivity.
Qed.

(** C7, amended: for input that is empty, that [json.loads] rejects, or
    that parses to an object with no [error] key, the summarizer returns a
    string of at most 600 characters. *)
Theorem summary_length_bounded (content : str) :
  content = []
  \/ json_loads py content = None
  \/ (exists fields, json_loads py content = Some (JObj fields)
                     /\ assoc (lit "error") fields = None) ->
  exists s, summarize_location_facts py content = Ok s
            /\ (List.length s <= 600)%nat.
Proof.
  intros H. unfold summarize_location_facts.
  destruct content as [|c content].
  - eexists; split; [reflexivity | vm_compute; lia].
  - destruct H as [H | [H | (fields & H & Herr)]]; [discriminate | |]; rewrite H.
    + eexists; split; [reflexivity |].
      pose proof (firstn_length_le 500 (c :: content)). lia.
    + destruct (@summarize_found_branch fields Herr) as (text & Hfound).
      unfold py_in, py_get, rbind in *. rewrite Hfound.
      eexists; split; [reflexivity | apply firstn_length_le].
Qed.

End Summarizer.

(** Unparseable input is returned cut at 500 characters. *)
Lemma summary_length_bounded_witness :
  exists s, summarize_location_facts PlainPy.runtime (lit "Prague, capital of Czechia") = Ok s
            /\ (List.length s <= 600)%nat.
Proof.
  apply (summary_length_bounded PlainPy.runtime (lit "Prague, capital of Czechia")).
  right; left. vm_compute. reflexivity.
Defined.

(** C7, as stated, fails: the not-found message repeats the requested name
    in full, so a name of 600 letters gives a summary of 669 characters. *)
Lemma summary_of_long_name_exceeds_600 :
  exists s, summarize_location_facts PlainPy.runtime long_not_found = Ok s
            /\ List.length s = 669%nat /\ (600 < List.length s)%nat.
Proof.
  eexists; split; [vm_compute; reflexivity |].
  split; [vm_compute; reflexivity | apply Nat.ltb_lt; vm_compute; reflexivity].
Qed.

(** ** The resolver *)

Section Resolver.

Variable py : Runtime.
Variable net : Services.

Lemma direct_pass_first (before after : list str) (cand : str) (p : page) :
  (forall c, In c before -> exists e, wiki_page net c false = Raise e) ->
  wiki_page net cand false = Ok p ->
  direct_pass net (before ++ cand :: after) = Some p.
Proof.
  intros Hfail Hok. induction before as [|c before IH]; simpl.
  - now rewrite Hok.
  - destruct (Hfail c (or_introl eq_refl)) as [e ->].
    apply IH. intros c' Hc'. apply Hfail. now right.
Qed.

Lemma first_success (variants : list str) :
  (exists variant, In variant variants /\ exists p, wiki_page net variant false = Ok p) ->
  exists before cand after p,
    variants = before ++ cand :: after
    /\ (forall c, In c before -> exists e, wiki_page net c false = Raise e)
    /\ wiki_page net cand false = Ok p.
Proof.
  induction variants as [|v variants IH]; intros (variant & Hin & p & Hp).
  - destruct Hin.
  - destruct (wiki_page net v false) as [q|e] eqn:Hv.
    + exists [], v, variants, q. split; [reflexivity |]. split; [intros c [] | exact Hv].
    + destruct IH as (before & cand & after & q & -> & Hfail & Hok).
      { destruct Hin as [<-|Hin]; [congruence | eauto]. }
      exists (v :: before), cand, after, q. split; [reflexivity |].
      split; [| exact Hok].
      intros c [<-|Hc]; [eauto | auto].
Qed.

(** C3: when one of the six variants fetches an article by exact lookup,
    the deduplicated list of variants splits at the first one that does:
    every variant before it failed, with whatever exception, and the article
    of that variant is what the resolver returns, as a found payload. *)
Theorem resolver_returns_first_direct_match (name : str) :
  (exists variant,
      In variant [ strip name;
                   title py (strip name);
                   unidecode py (strip name);
                   title py (unidecode py (strip name));
                   replace_space_hyphen (strip name);
                   replace_space_hyphen (unidecode py (strip name)) ]
      /\ exists p, wiki_page net variant false = Ok p) ->
  exists before cand after p,
    candidates py (strip name) (unidecode py (strip name)) = before ++ cand :: after
    /\ (forall c, In c before -> exists e, wiki_page net c false = Raise e)
    /\ wiki_page net cand false = Ok p
    /\ resolve_city_page py net (JStr name) = Ok (Some p)
    /\ location_facts_payload py net (JStr name) = found_payload (JStr name) p.
Proof.
  intros (variant & Hin & Hp).
  destruct (first_success (candidates py (strip name) (unidecode py (strip name))))
    as (before & cand & after & p & Hc & Hfail & Hok).
  { exists variant. split; [| exact Hp]. unfold candidates. now apply fromkeys_In. }
  exists before, cand, after, p.
  assert (Hres : resolve_city_page py net (JStr name) = Ok (Some p)).
  { unfold resolve_city_page, py_strip, rbind.
    rewrite Hc, (direct_pass_first before after cand p Hfail Hok). reflexivity. }
  repeat (split; [assumption |]).
  unfold location_facts_payload. now rewrite Hres.
Qed.

Lemma score_nonneg (raw ascii_name : str) (p : page) :
  (0 <= score py raw ascii_name p)%Z.
Proof.
  unfold score, category_bonus.
  repeat match goal with
         | |- context [if ?b then _ else _] => destruct b
         | |- context [match ?r with Ok _ => _ | Raise _ => _ end] => destruct r
         end; lia.
Qed.

Lemma score_pass_fetched (raw ascii_name : str) (results : list str) :
  forall best_page best_score,
    score_pass py net raw ascii_name results best_page best_score
    = best_of py raw ascii_name (fetched net results) best_page best_score.
Proof.
  induction results as [|r results IH]; intros bp bs; simpl; [reflexivity |].
  destruct (wiki_page net r true) as [p|e]; simpl; [|apply IH].
  destruct (bs <? score py raw ascii_name p)%Z; apply IH.
Qed.

Lemma best_of_spec (raw ascii_name : str) (pages : list page) :
  forall best_page best_score,
    (best_of py raw ascii_name pages best_page best_score = best_page
     /\ forall q, In q pages -> (score py raw ascii_name q <= best_score)%Z)
    \/ exists before p after,
         pages = before ++ p :: after
         /\ best_of py raw ascii_name pages best_page best_score = Some p
         /\ (best_score < score py raw ascii_name p)%Z
         /\ (forall q, In q before ->
                       (score py raw ascii_name q < score py raw ascii_name p)%Z)
         /\ (forall q, In q after ->
                       (score py raw ascii_name q <= score py raw ascii_name p)%Z).
Proof.
  induction pages as [|p pages IH]; intros bp bs; simpl.
  - left. split; [reflexivity | intros q []].
  - destruct (Z.ltb_spec bs (score py raw ascii_name p)) as [Hlt|Hge].
    + destruct (IH (Some p) (score py raw ascii_name p))
        as [[Heq Hall] | (before & w & after & Hp & Heq & Hw & Hb & Ha)].
      * right. exists [], p, pages.
        split; [reflexivity |]. split; [exact Heq |]. split; [exact Hlt |].
        split; [intros q [] | exact Hall].
      * right. exists (p :: before), w, after. rewrite Hp.
        split; [reflexivity |]. split; [rewrite <- Hp; exact Heq |]. split; [lia |].
        split; [| exact Ha].
        intros q [<-|Hq]; [lia | auto].
    + destruct (IH bp bs)
        as [[Heq Hall] | (before & w & after & Hp & Heq & Hw & Hb & Ha)].
      * left. split; [exact Heq |]. intros q [<-|Hq]; [lia | auto].
      * right. exists (p :: before), w, after. rewrite Hp.
        split; [reflexivity |]. split; [rewrite <- Hp; exact Heq |]. split; [exact Hw |].
        split; [| exact Ha].
        intros q [<-|Hq]; [lia | auto].
Qed.

(** C4: in the search-and-score pass the page returned is the first of the
    fetched pages, in fetch order, whose score is the maximum: every page
    fetched before it scores strictly less and every page fetched after it
    scores no more.  With nothing fetched the pass returns no page. *)
Theorem search_pass_returns_first_maximum (name raw : str) (results : list str) :
  raw = strip name ->
  direct_pass net (candidates py raw (unidecode py raw)) = None ->
  wiki_search net (unidecode py raw) = Ok results ->
  match fetched net (firstn 10 results) with
  | [] => resolve_city_page py net (JStr name) = Ok None
  | _ :: _ =>
      exists before winner after,
        fetched net (firstn 10 results) = before ++ winner :: after
        /\ resolve_city_page py net (JStr name) = Ok (Some winner)
        /\ (forall q, In q before ->
              (score py raw (unidecode py raw) q < score py raw (unidecode py raw) winner)%Z)
        /\ (forall q, In q after ->
              (score py raw (unidecode py raw) q <= score py raw (unidecode py raw) winner)%Z)
  end.
Proof.
  intros -> Hdirect Hsearch.
  set (raw := strip name) in *. set (ascii_name := unidecode py raw) in *.
  assert (Hres : resolve_city_page py net (JStr name)
                 = Ok (best_of py raw ascii_name (fetched net (firstn 10 results)) None (-1))).
  { unfold resolve_city_page, py_strip, rbind. fold raw. fold ascii_name.
    rewrite Hdirect, Hsearch.
    destruct results as [|r results]; [reflexivity |].
    now rewrite score_pass_fetched. }
  destruct (fetched net (firstn 10 results)) as [|p pages] eqn:Hf; [exact Hres |].
  destruct (best_of_spec raw ascii_name (p :: pages) None (-1))
    as [[_ Hall] | (before & w & after & Hp & Heq & _ & Hb & Ha)].
  - pose proof (Hall p (or_introl eq_refl)).
    pose proof (score_nonneg raw ascii_name p). lia.
  - exists before, w, after. rewrite Hres, Heq. auto.
Qed.

(** In the second loop a lookup that raises, whatever it raises, leaves the
    loop variables as they were. *)
Lemma score_pass_skips_failures (raw ascii_name : str) (results : list str) :
  (forall r, In r results -> exists e, wiki_page net r true = Raise e) ->
  forall best_page best_score,
    score_pass py net raw ascii_name results best_page best_score = best_page.
Proof.
  induction results as [|r results IH]; intros Hfail bp bs; simpl; [reflexivity |].
  destruct (Hfail r (or_introl eq_refl)) as [e ->].
  apply IH. intros r' Hr'. apply Hfail. now right.
Qed.

(** The disambiguation payload is produced only when the full-text search
    itself raises the disambiguation error; no page lookup leads to it. *)
Lemma disambiguation_only_from_search (name : json) (options : list str) :
  location_facts_payload py net name = disambiguation_payload name options ->
  exists raw opts msg,
    py_strip name = Ok raw
    /\ wiki_search net (unidecode py raw) = Raise (DisambiguationError opts msg).
Proof.
  unfold location_facts_payload, resolve_city_page, rbind.
  destruct (py_strip name) as [raw|e] eqn:Hs.
  - destruct (direct_pass net (candidates py raw (unidecode py raw))).
    + discriminate.
    + destruct (wiki_search net (unidecode py raw)) as [results|e] eqn:Hw.
      * destruct results; [discriminate |].
        destruct (score_pass py net raw (unidecode py raw) (firstn 10 (s :: results)) None (-1));
          discriminate.
      * destruct e; try discriminate. intros _. eauto.
  - destruct name; simpl in Hs; try discriminate; inversion Hs; subst; discriminate.
Qed.

End Resolver.

Lemma resolver_returns_first_direct_match_witness :
  exists before cand after p,
    candidates PlainPy.runtime (strip (lit " new york"))
               (unidecode PlainPy.runtime (strip (lit " new york")))
    = before ++ cand :: after
    /\ (forall c, In c before -> exists e, wiki_page new_york_net c false = Raise e)
    /\ wiki_page new_york_net cand false = Ok p
    /\ resolve_city_page PlainPy.runtime new_york_net (JStr (lit " new york")) = Ok (Some p)
    /\ location_facts_payload PlainPy.runtime new_york_net (JStr (lit " new york"))
       = found_payload (JStr (lit " new york")) p.
Proof.
  apply (resolver_returns_first_direct_match PlainPy.runtime new_york_net (lit " new york")).
  exists (lit "New York"). split.
  - right; left. vm_compute. reflexivity.
  - exists new_york_page. vm_compute. reflexivity.
Defined.

(** The variants of [ new york] are three after deduplication, and the
    second is the one that is found. *)
Example new_york_variants :
  candidates PlainPy.runtime (lit "new york") (lit "new york")
  = [lit "new york"; lit "New York"; lit "new-york"]
  /\ resolve_city_page PlainPy.runtime new_york_net (JStr (lit " new york"))
     = Ok (Some new_york_page).
Proof. split; vm_compute; reflexivity. Qed.

Lemma search_pass_returns_first_maximum_witness :
  exists before winner after,
    fetched paris_net (firstn 10 [lit "Paris, Texas"; lit "Paris (mythology)"; lit "Paris, Kentucky"])
    = before ++ winner :: after
    /\ resolve_city_page PlainPy.runtime paris_net (JStr (lit "paris")) = Ok (Some winner)
    /\ (forall q, In q before ->
          (score PlainPy.runtime (lit "paris") (unidecode PlainPy.runtime (lit "paris")) q
           < score PlainPy.runtime (lit "paris") (unidecode PlainPy.runtime (lit "paris")) winner)%Z)
    /\ (forall q, In q after ->
          (score PlainPy.runtime (lit "paris") (unidecode PlainPy.runtime (lit "paris")) q
           <= score PlainPy.runtime (lit "paris") (unidecode PlainPy.runtime (lit "paris")) winner)%Z).
Proof.
  apply (search_pass_returns_first_maximum PlainPy.runtime paris_net (lit "paris") (lit "paris")
           [lit "Paris, Texas"; lit "Paris (mythology)"; lit "Paris, Kentucky"]).
  - vm_compute. reflexivity.
  - vm_compute. reflexivity.
  - vm_compute. reflexivity.
Defined.

(** The two fetched pages tie at 65 (substring and category), and the
    earlier one is returned. *)
Example paris_tie_keeps_earliest :
  resolve_city_page PlainPy.runtime paris_net (JStr (lit "paris"))
  = Ok (Some (paris_page "Paris, Texas" [lit "Cities in Texas"]))
  /\ map (score PlainPy.runtime (lit "paris") (lit "paris"))
         (fetched paris_net [lit "Paris, Texas"; lit "Paris (mythology)"; lit "Paris, Kentucky"])
     = [65; 65]%Z.
Proof. split; vm_compute; reflexivity. Qed.

(** The weights: an exact title scores 100 and 40, a city category 25, the
    word [city] in the title 15. *)
Example score_weights :
  score PlainPy.runtime (lit "Paris") (lit "Paris")
        (paris_page "Paris" [lit "Populated places in France"]) = 165%Z
  /\ score PlainPy.runtime (lit "Paris") (lit "Paris")
           (paris_page "Paris, Texas" [lit "Cities in Texas"]) = 65%Z
  /\ score PlainPy.runtime (lit "Paris") (lit "Paris")
           (paris_page "Paris (mythology)" [lit "Trojans"]) = 40%Z
  /\ score PlainPy.runtime (lit "Mexico") (lit "Mexico")
           (paris_page "Mexico City" []) = 55%Z.
Proof. repeat split; vm_compute; reflexivity. Qed.

(** C5, at the failing input: every exact lookup misses, the search returns
    one title, and fetching that title raises the disambiguation error with
    two options.  The candidate is skipped and the payload is the not-found
    one; the options are lost. *)
Theorem search_pass_disambiguation_is_not_found :
  location_facts_payload PlainPy.runtime ambiguous_net (JStr (lit "Mercury"))
  = not_found_payload (JStr (lit "Mercury"))
  /\ wiki_page ambiguous_net (lit "Mercury") true
     = Raise (DisambiguationError [lit "Mercury (planet)"; lit "Mercury (element)"]
                                  (lit "may refer to")).
Proof. split; vm_compute; reflexivity. Qed.

(** ** The tool loop *)

Ltac unfold_monad :=
  unfold bind, ret, raise, lift, emit, append_message, get_messages in *; simpl in *.

Lemma str_eqb_refl (a : str) : str_eqb a a = true.
Proof. unfold str_eqb. destruct (list_eq_dec N.eq_dec a a); congruence. Qed.


Lemma str_eqb_neq (a b : str) : a <> b -> str_eqb a b = false.
Proof. unfold str_eqb. destruct (list_eq_dec N.eq_dec a b); congruence. Qed.

Lemma extends_refl (l : list message) : extends l l.
Proof. exists []. now rewrite app_nil_r. Qed.

Lemma extends_app (l added : list message) : extends l (l ++ added).
Proof. now exists added. Qed.

Lemma extends_trans (a b c : list message) : extends a b -> extends b c -> extends a c.
Proof. intros [x ->] [y ->]. exists (x ++ y). now rewrite app_assoc. Qed.

Lemma chain_start (a b : list message) (snaps : list (list message)) (final : list message) :
  extends a b -> chain b snaps final -> chain a snaps final.
Proof.
  destruct snaps as [|s rest]; simpl.
  - apply extends_trans.
  - intros Hab [Hbs Hrest]. split; [eapply extends_trans; eauto | exact Hrest].
Qed.

Lemma snapshots_app (t u : list event) : snapshots (t ++ u) = snapshots t ++ snapshots u.
Proof.
  induction t as [|e t IH]; simpl; [reflexivity |].
  destruct e; simpl; now rewrite ?IH.
Qed.

Lemma llm_rounds_app (t u : list event) : llm_rounds (t ++ u) = llm_rounds t + llm_rounds u.
Proof.
  induction t as [|e t IH]; simpl; [reflexivity |].
  destruct e; simpl; now rewrite ?IH.
Qed.

Lemma llm_rounds_snapshots (t : list event) : llm_rounds t = List.length (snapshots t).
Proof.
  induction t as [|e t IH]; simpl; [reflexivity |].
  destruct e; simpl; now rewrite ?IH.
Qed.

Section Loop.

Variable py : Runtime.
Variable net : Services.

Lemma quiet_refl (st : state) : quiet st st.
Proof. exists []. now rewrite app_nil_r. Qed.

Lemma quiet_trans (a b c : state) : quiet a b -> quiet b c -> quiet a c.
Proof.
  intros (x & Hx & Sx) (y & Hy & Sy). exists (x ++ y).
  rewrite Hy, Hx, app_assoc, snapshots_app, Sx, Sy. auto.
Qed.

Lemma bind_inv {A B} (m : M A) (k : A -> M B) (st st' : state) (out : result B) :
  bind m k st = (out, st') ->
  (exists a st1, m st = (Ok a, st1) /\ k a st1 = (out, st'))
  \/ (exists e, m st = (Raise e, st') /\ out = Raise e).
Proof.
  unfold bind. destruct (m st) as [[a|e] st1]; intros H.
  - left. eauto.
  - right. inversion H; subst. eauto.
Qed.

Lemma execute_tool_state (tc : tool_call) (st st' : state) (out : result str) :
  execute_tool py net tc st = (out, st') ->
  messages st' = messages st /\ quiet st st'.
Proof.
  unfold execute_tool, integrations_get_public_ip, integrations_get_location,
    integrations_get_location_facts.
  destruct (str_eqb (fn_name (tc_function tc)) GET_PUBLIC_IP).
  { unfold_monad. destruct (http_get_text net _); intros H; inversion H; subst; simpl;
      (split; [reflexivity | exists [PublicIpLookup]; auto]). }
  destruct (str_eqb (fn_name (tc_function tc)) GET_LOCATION).
  { unfold_monad.
    destruct (py_get (parse_arguments py (fn_arguments (tc_function tc))) "ip_address" JNull)
      as [ip|e]; simpl.
    - destruct (http_get_text net _); intros H; inversion H; subst; simpl;
        (split; [reflexivity | exists [LocationLookup ip]; auto]).
    - intros H; inversion H; subst. split; [reflexivity | apply quiet_refl]. }
  destruct (str_eqb (fn_name (tc_function tc)) GET_LOCATION_INFO).
  { unfold_monad.
    destruct (py_get (parse_arguments py (fn_arguments (tc_function tc))) "name" JNull)
      as [name|e]; simpl; intros H; inversion H; subst; simpl.
    - split; [reflexivity | exists [FactsLookup name]; auto].
    - split; [reflexivity | apply quiet_refl]. }
  unfold_monad. intros H; inversion H; subst. split; [reflexivity | apply quiet_refl].
Qed.

Lemma quiet_with_messages (st st1 : state) (added : list message) :
  quiet st st1 -> quiet st (with_messages st1 added).
Proof. intros (evs & H & Hs). exists evs. auto. Qed.

Lemma dispatch_state (calls : list tool_call) :
  forall st out st',
    dispatch py net calls st = (out, st') ->
    extends (messages st) (messages st') /\ quiet st st'.
Proof.
  induction calls as [|tc calls IH]; intros st out st' H; simpl in H.
  - inversion H; subst. split; [apply extends_refl | apply quiet_refl].
  - apply bind_inv in H. destruct H as [(r & st1 & Hx & H) | (e & Hx & ->)].
    + destruct (execute_tool_state _ _ _ _ Hx) as [Hm Hq].
      apply bind_inv in H. destruct H as [([] & st2 & Ha & H) | (e & Ha & _)];
        [| discriminate Ha].
      inversion Ha; subst st2; clear Ha.
      fold (tool_message tc r) in H.
      fold (with_messages st1 [tool_message tc r]) in H.
      assert (Hm2 : extends (messages st) (messages (with_messages st1 [tool_message tc r]))).
      { simpl. rewrite Hm. apply extends_app. }
      assert (Hq2 : quiet st (with_messages st1 [tool_message tc r]))
        by now apply quiet_with_messages.
      destruct (str_eqb (fn_name (tc_function tc)) GET_LOCATION_INFO).
      * apply bind_inv in H. destruct H as [(summary & st3 & Hs & H) | (e & Hs & _)].
        -- inversion Hs as [[Hsum Hst]]; subst st3.
           unfold_monad. inversion H; subst; simpl. split.
           ++ rewrite Hm, <- app_assoc. apply extends_app.
           ++ exact Hq.
        -- inversion Hs; subst. auto.
      * destruct (IH _ _ _ H) as [He Hq3]. split.
        -- eapply extends_trans; eauto.
        -- eapply quiet_trans; eauto.
    + destruct (execute_tool_state _ _ _ _ Hx) as [Hm Hq].
      split; [rewrite Hm; apply extends_refl | exact Hq].
Qed.

Lemma run_loop_chain (rounds : nat) :
  forall st out st',
    run_loop py net rounds st = (out, st') ->
    exists events,
      trace st' = trace st ++ events
      /\ chain (messages st) (snapshots events) (messages st')
      /\ llm_rounds events <= rounds
      /\ (0 < rounds -> 1 <= llm_rounds events).
Proof.
  induction rounds as [|rounds IH]; intros st out st' H; simpl in H.
  - inversion H; subst. exists []. rewrite app_nil_r. simpl.
    split; [reflexivity |]. split; [apply extends_refl | lia].
  - apply bind_inv in H. destruct H as [(msgs & st0 & Hg & H) | (e & Hg & _)];
      [| discriminate Hg].
    inversion Hg; subst msgs st0; clear Hg.
    apply bind_inv in H. destruct H as [([] & st1 & He & H) | (e & He & _)];
      [| discriminate He].
    inversion He; subst st1; clear He.
    apply bind_inv in H. destruct H as [(response & st1 & Hc & H) | (e & Hc & ->)].
    + unfold lift in Hc. inversion Hc as [[Hchat Hst]]; subst st1; clear Hc.
      destruct (rm_tool_calls response) as [|tc calls] eqn:Hcalls.
      * unfold_monad. inversion H; subst; simpl.
        exists [LLMRequest (messages st)]. simpl.
        split; [reflexivity |].
        split; [split; [apply extends_refl | apply extends_app] | lia].
      * apply bind_inv in H. destruct H as [([] & st2 & Ha & H) | (e & Ha & _)];
          [| discriminate Ha].
        inversion Ha; subst st2; clear Ha. simpl in H.
        apply bind_inv in H.
        assert (Hround : forall o st3,
                   dispatch py net (tc :: calls)
                     {| messages := messages st
                                    ++ [AssistantCalls (rm_content response) (tc :: calls)];
                        trace := trace st ++ [LLMRequest (messages st)] |} = (o, st3) ->
                   exists evs, trace st3 = trace st ++ LLMRequest (messages st) :: evs
                               /\ snapshots evs = []
                               /\ extends (messages st) (messages st3)).
        { intros o st3 Hd. destruct (dispatch_state _ _ _ _ Hd) as [Hx (evs & Ht & Hs)].
          simpl in Hx, Ht. exists evs. split; [now rewrite Ht, <- app_assoc |].
          split; [exact Hs |]. eapply extends_trans; [apply extends_app | exact Hx]. }
        destruct H as [(finished & st3 & Hd & H) | (e & Hd & ->)].
        -- destruct (Hround _ _ Hd) as (evs & Ht & Hs & Hx).
           destruct finished as [summary|].
           ++ unfold_monad. inversion H; subst.
              exists (LLMRequest (messages st) :: evs). simpl.
              rewrite llm_rounds_snapshots, Hs. simpl.
              split; [exact Ht |].
              split; [split; [apply extends_refl | exact Hx] | lia].
           ++ destruct (IH _ _ _ H) as (evs' & Ht' & Hc' & Hle & _).
              exists (LLMRequest (messages st) :: evs ++ evs'). split.
              ** rewrite Ht', Ht. now rewrite <- app_assoc.
              ** simpl. rewrite snapshots_app, llm_rounds_app, (llm_rounds_snapshots evs), Hs.
                 simpl. split; [| lia].
                 split; [apply extends_refl |].
                 eapply chain_start; [exact Hx | exact Hc'].
        -- destruct (Hround _ _ Hd) as (evs & Ht & Hs & Hx).
           exists (LLMRequest (messages st) :: evs). simpl.
           rewrite llm_rounds_snapshots, Hs. simpl.
           split; [exact Ht |].
           split; [split; [apply extends_refl | exact Hx] | lia].
    + unfold lift in Hc. inversion Hc; subst.
      exists [LLMRequest (messages st)]. simpl.
      split; [reflexivity |]. split; [split; apply extends_refl | lia].
Qed.

Lemma dispatch_app (before rest : list tool_call) :
  forall st st1,
    dispatch py net before st = (Ok None, st1) ->
    dispatch py net (before ++ rest) st = dispatch py net rest st1.
Proof.
  induction before as [|tc before IH]; intros st st1 H; simpl in *.
  - inversion H; subst. reflexivity.
  - unfold bind at 1 in H. unfold bind at 1.
    destruct (execute_tool py net tc st) as [[r|e] st2]; [| discriminate H].
    unfold bind at 1 in H. unfold bind at 1.
    unfold append_message at 1 in H. unfold append_message at 1.
    destruct (str_eqb (fn_name (tc_function tc)) GET_LOCATION_INFO).
    + exfalso. unfold_monad.
      destruct (summarize_location_facts py r); discriminate H.
    + now apply IH.
Qed.

(** One round that asks for tools: the calls are dispatched in the state
    [dispatching], and the loop goes on only when [dispatch] ran to its end. *)
Lemma run_loop_round (rounds : nat) (st : state) (response : response_message) :
  chat_completion net (messages st) = Ok response ->
  rm_tool_calls response <> [] ->
  run_loop py net (S rounds) st
  = match dispatch py net (rm_tool_calls response) (dispatching st response) with
    | (Ok (Some summary), st') => (Ok (Some summary), st')
    | (Ok None, st') => run_loop py net rounds st'
    | (Raise e, st') => (Raise e, st')
    end.
Proof.
  intros Hchat Hcalls.
  destruct (dispatch py net (rm_tool_calls response) (dispatching st response))
    as [out st'] eqn:Hd.
  cbn [run_loop].
  unfold bind at 1, get_messages at 1. unfold bind at 1, emit at 1.
  unfold bind at 1, lift at 1. cbn [messages trace]. rewrite Hchat.
  unfold dispatching in Hd.
  destruct (rm_tool_calls response) as [|tc calls]; [congruence |].
  unfold bind at 1, append_message at 1. cbn [messages trace]. unfold bind at 1.
  rewrite Hd. destruct out as [[summary|]|e]; reflexivity.
Qed.

Lemma dispatch_messages (calls : list tool_call) :
  forall st,
    messages (snd (dispatch py net calls st))
    = messages st ++ dispatch_appends py net calls st.
Proof.
  induction calls as [|tc calls IH]; intros st; cbn [dispatch dispatch_appends].
  - simpl. now rewrite app_nil_r.
  - unfold bind at 1.
    destruct (execute_tool py net tc st) as [[r|e] st1] eqn:Hx;
      destruct (execute_tool_state _ _ _ _ Hx) as [Hm _].
    + unfold bind at 1, append_message at 1.
      change {| messages := messages st1
                            ++ [ToolResult (tc_id tc) (fn_name (tc_function tc)) r];
                trace := trace st1 |}
        with (with_messages st1 [tool_message tc r]).
      destruct (str_eqb (fn_name (tc_function tc)) GET_LOCATION_INFO).
      * unfold bind at 1, lift at 1.
        destruct (summarize_location_facts py r) as [summary|e]; simpl.
        -- now rewrite Hm, <- app_assoc.
        -- now rewrite Hm.
      * rewrite IH. simpl. now rewrite Hm, <- app_assoc.
    + simpl. now rewrite Hm, app_nil_r.
Qed.

Lemma run_messages (rounds : nat) :
  forall st,
    messages (snd (run_loop py net rounds st))
    = messages st ++ run_appends py net rounds st.
Proof.
  induction rounds as [|rounds IH]; intros st.
  - simpl. now rewrite app_nil_r.
  - cbn [run_appends].
    destruct (chat_completion net (messages st)) as [response|e] eqn:Hchat.
    + destruct (rm_tool_calls response) as [|tc calls] eqn:Hcalls.
      * cbn [run_loop].
        unfold bind at 1, get_messages at 1. unfold bind at 1, emit at 1.
        unfold bind at 1, lift at 1. cbn [messages trace]. rewrite Hchat, Hcalls.
        reflexivity.
      * rewrite (run_loop_round rounds st response Hchat) by (rewrite Hcalls; discriminate).
        rewrite <- Hcalls.
        pose proof (dispatch_messages (rm_tool_calls response) (dispatching st response))
          as Hd.
        destruct (dispatch py net (rm_tool_calls response) (dispatching st response))
          as [[[summary|]|e] st1]; simpl in Hd; simpl.
        -- rewrite Hd, app_nil_r, <- app_assoc. reflexivity.
        -- rewrite IH, Hd, <- !app_assoc. reflexivity.
        -- rewrite Hd, app_nil_r, <- app_assoc. reflexivity.
    + cbn [run_loop].
      unfold bind at 1, get_messages at 1. unfold bind at 1, emit at 1.
      unfold bind at 1, lift at 1. cbn [messages trace]. rewrite Hchat.
      simpl. now rewrite app_nil_r.
Qed.

(** C9: whatever part of the loop runs and however it ends, the transcript
    it leaves is the transcript it found followed by the messages it
    appended, each as it was appended and in that order.  This holds for the
    loop over a round's calls, from any state and for any calls, and for any
    number of rounds of the outer loop, from any state; and the transcripts
    sent to the LLM form a chain of extensions from the transcript the loop
    was entered with to the one it leaves. *)
Theorem transcript_is_append_only :
  (forall calls st,
      messages (snd (dispatch py net calls st))
      = messages st ++ dispatch_appends py net calls st)
  /\ (forall rounds st,
         messages (snd (run_loop py net rounds st))
         = messages st ++ run_appends py net rounds st)
  /\ (forall rounds st,
         exists events,
           trace (snd (run_loop py net rounds st)) = trace st ++ events
           /\ chain (messages st) (snapshots events)
                    (messages (snd (run_loop py net rounds st)))).
Proof.
  split; [exact dispatch_messages |]. split; [exact run_messages |].
  intros rounds st.
  destruct (run_loop py net rounds st) as [out st'] eqn:H.
  destruct (run_loop_chain rounds st out st' H) as (events & Ht & Hc & _).
  exists events. auto.
Qed.

Lemma execute_unknown_tool (tc : tool_call) (st : state) :
  fn_name (tc_function tc) <> GET_PUBLIC_IP ->
  fn_name (tc_function tc) <> GET_LOCATION ->
  fn_name (tc_function tc) <> GET_LOCATION_INFO ->
  execute_tool py net tc st = (Ok (unknown_tool_notice (fn_name (tc_function tc))), st).
Proof.
  intros H1 H2 H3. unfold execute_tool.
  rewrite (str_eqb_neq _ _ H1), (str_eqb_neq _ _ H2), (str_eqb_neq _ _ H3). reflexivity.
Qed.

Lemma dispatch_unknown_tool (tc : tool_call) (rest : list tool_call) (st : state) :
  fn_name (tc_function tc) <> GET_PUBLIC_IP ->
  fn_name (tc_function tc) <> GET_LOCATION ->
  fn_name (tc_function tc) <> GET_LOCATION_INFO ->
  dispatch py net (tc :: rest) st
  = dispatch py net rest
      (with_messages st [tool_message tc (unknown_tool_notice (fn_name (tc_function tc)))]).
Proof.
  intros H1 H2 H3. simpl. unfold bind at 1.
  rewrite (execute_unknown_tool tc st H1 H2 H3).
  unfold bind at 1, append_message at 1.
  rewrite (str_eqb_neq _ _ H3). reflexivity.
Qed.

(** C8: a call whose name is none of the three tools reaches no
    integration: [__execute_tool] returns the notice and leaves the state as
    it was, the notice is appended as the call's tool result, and the loop
    over the round's calls goes on with the next call. *)
Theorem unknown_tool_gets_notice (tc : tool_call) (rest : list tool_call) (st : state) :
  fn_name (tc_function tc) <> GET_PUBLIC_IP ->
  fn_name (tc_function tc) <> GET_LOCATION ->
  fn_name (tc_function tc) <> GET_LOCATION_INFO ->
  execute_tool py net tc st = (Ok (unknown_tool_notice (fn_name (tc_function tc))), st)
  /\ dispatch py net (tc :: rest) st
     = dispatch py net rest
         (with_messages st [tool_message tc (unknown_tool_notice (fn_name (tc_function tc)))]).
Proof.
  intros H1 H2 H3. split.
  - now apply execute_unknown_tool.
  - now apply dispatch_unknown_tool.
Qed.

(** C10: when the call reached in a round is [get_location] or
    [get_location_info] and its argument payload is a string that
    [json.loads] rejects, [__execute_tool] raises the AttributeError of
    calling [get] on a str, before any integration is entered; [run] ends
    with that exception and the transcript holds no tool result for the
    call. *)
Theorem unparseable_arguments_abort_run
        (rounds : nat) (st st1 : state) (response : response_message)
        (before after : list tool_call) (tc : tool_call) (payload : str) :
  fn_name (tc_function tc) = GET_LOCATION \/ fn_name (tc_function tc) = GET_LOCATION_INFO ->
  fn_arguments (tc_function tc) = JStr payload ->
  json_loads py payload = None ->
  chat_completion net (messages st) = Ok response ->
  rm_tool_calls response = before ++ tc :: after ->
  dispatch py net before (dispatching st response) = (Ok None, st1) ->
  execute_tool py net tc st1 = (Raise (AttributeError (JStr payload) "get"), st1)
  /\ run_loop py net (S rounds) st = (Raise (AttributeError (JStr payload) "get"), st1).
Proof.
  intros Hname Hargs Hloads Hchat Hcalls Hbefore.
  assert (Hx : forall s, execute_tool py net tc s
                         = (Raise (AttributeError (JStr payload) "get"), s)).
  { intros s. unfold execute_tool, parse_arguments. rewrite Hargs, Hloads.
    destruct Hname as [-> | ->]; reflexivity. }
  split; [apply Hx |].
  rewrite (run_loop_round rounds st response Hchat)
    by (rewrite Hcalls; destruct before; discriminate).
  rewrite Hcalls, (dispatch_app before (tc :: after) _ _ Hbefore).
  simpl. unfold bind at 1. rewrite Hx. reflexivity.
Qed.

(** C1: when a round's calls are [before ++ tc :: after], the calls of
    [before] ran to the end of the loop body and [tc], named
    [get_location_info], returned [tool_response], then [run] ends in that
    round with what the summarizer makes of [tool_response]: the summary is
    returned after the tool result and the summary have been appended, and
    the trace is the one left by [tc], so no call of [after] was executed. *)
Theorem facts_lookup_ends_run
        (rounds : nat) (st st1 st2 : state) (response : response_message)
        (before after : list tool_call) (tc : tool_call) (tool_response : str) :
  chat_completion net (messages st) = Ok response ->
  rm_tool_calls response = before ++ tc :: after ->
  dispatch py net before (dispatching st response) = (Ok None, st1) ->
  fn_name (tc_function tc) = GET_LOCATION_INFO ->
  execute_tool py net tc st1 = (Ok tool_response, st2) ->
  run_loop py net (S rounds) st
  = match summarize_location_facts py tool_response with
    | Ok summary =>
        (Ok (Some summary),
         with_messages st2 [tool_message tc tool_response;
                            Plain (lit "assistant") (Some summary)])
    | Raise e => (Raise e, with_messages st2 [tool_message tc tool_response])
    end.
Proof.
  intros Hchat Hcalls Hbefore Hname Hx.
  rewrite (run_loop_round rounds st response Hchat)
    by (rewrite Hcalls; destruct before; discriminate).
  rewrite Hcalls, (dispatch_app before (tc :: after) _ _ Hbefore).
  simpl. unfold bind at 1. rewrite Hx.
  unfold bind at 1, append_message at 1.
  replace (str_eqb (fn_name (tc_function tc)) GET_LOCATION_INFO) with true
    by (rewrite Hname; symmetry; apply str_eqb_refl).
  unfold bind at 1, lift at 1.
  destruct (summarize_location_facts py tool_response) as [summary|e]; [| reflexivity].
  unfold_monad. unfold with_messages, tool_message. simpl.
  now rewrite <- app_assoc.
Qed.

(** What the dispatch of [get_location_info] returns when the arguments
    are a dict: the serialized payload, after one facts lookup. *)
Lemma execute_facts_lookup (tc : tool_call) (name : json) (st : state) :
  fn_name (tc_function tc) = GET_LOCATION_INFO ->
  py_get (parse_arguments py (fn_arguments (tc_function tc))) "name" JNull = Ok name ->
  execute_tool py net tc st
  = (Ok (json_dumps py (location_facts_payload py net name)),
     {| messages := messages st; trace := trace st ++ [FactsLookup name] |}).
Proof.
  intros Hname Hget. unfold execute_tool. rewrite Hname.
  change (str_eqb GET_LOCATION_INFO GET_PUBLIC_IP) with false.
  change (str_eqb GET_LOCATION_INFO GET_LOCATION) with false.
  change (str_eqb GET_LOCATION_INFO GET_LOCATION_INFO) with true.
  cbv iota. unfold bind at 1, lift at 1. rewrite Hget. reflexivity.
Qed.

Lemma all_strs_map (l : list str) : all_strs (map JStr l) = Some l.
Proof. induction l as [|x l IH]; simpl; [reflexivity | now rewrite IH]. Qed.

Ltac eval_str_eqb :=
  repeat match goal with
         | |- context [str_eqb (lit ?a) (lit ?b)] =>
             let v := eval vm_compute in (str_eqb (lit a) (lit b)) in
             change (str_eqb (lit a) (lit b)) with v
         end.

(** X14: on the result of a facts lookup the summarizer raises nothing, as
    long as [json.loads] gives back the dict that [json.dumps] serialized. *)
Lemma summarize_facts_payload_total (name : json) :
  json_loads py (json_dumps py (location_facts_payload py net name))
  = Some (location_facts_payload py net name) ->
  exists summary,
    summarize_location_facts py (json_dumps py (location_facts_payload py net name))
    = Ok summary.
Proof.
  intros Hload. unfold summarize_location_facts.
  destruct (json_dumps py (location_facts_payload py net name)) as [|c content];
    [eexists; reflexivity |].
  rewrite Hload. unfold location_facts_payload.
  destruct (resolve_city_page py net name) as [[p|]|[options msg|msg|kind msg]];
    unfold found_payload, not_found_payload, disambiguation_payload, general_payload,
      py_in, py_getitem, py_get, py_slice, py_join, is_str, rbind;
    cbn [assoc]; eval_str_eqb; cbv iota;
    try (eexists; reflexivity).
  rewrite firstn_map, all_strs_map. eexists; reflexivity.
Qed.

Lemma run_loop_exhausts (rounds : nat) :
  (forall st, round_proceeds py net st) ->
  forall st,
    exists st',
      run_loop py net rounds st = (Raise MaxIterations, st')
      /\ llm_rounds (trace st') = llm_rounds (trace st) + rounds.
Proof.
  intros Hall. induction rounds as [|rounds IH]; intros st.
  - exists st. split; [reflexivity | lia].
  - destruct (Hall st) as (response & st1 & Hchat & Hcalls & Hd).
    rewrite (run_loop_round rounds st response Hchat Hcalls), Hd.
    destruct (IH st1) as (st' & Hrun & Hcount).
    exists st'. split; [exact Hrun |].
    destruct (dispatch_state _ _ _ _ Hd) as [_ (evs & Ht & Hs)].
    rewrite Hcount, Ht, llm_rounds_app, (llm_rounds_snapshots evs), Hs.
    unfold dispatching; simpl. rewrite llm_rounds_app. simpl. lia.
Qed.

(** Rounds that proceed only use up rounds of the loop. *)
Lemma proceeds_run_loop (k : nat) :
  forall st st_k,
    proceeds py net k st st_k ->
    forall rounds, run_loop py net (k + rounds) st = run_loop py net rounds st_k.
Proof.
  induction k as [|k IH]; intros st st_k H rounds; cbn [proceeds] in H.
  - subst. reflexivity.
  - destruct H as (response & st1 & Hchat & Hcalls & Hd & Hrest).
    change (S k + rounds) with (S (k + rounds)).
    rewrite (run_loop_round (k + rounds) st response Hchat Hcalls), Hd.
    now apply IH.
Qed.

Lemma proceeds_requests (k : nat) :
  forall st st_k,
    proceeds py net k st st_k ->
    llm_rounds (trace st_k) = llm_rounds (trace st) + k.
Proof.
  induction k as [|k IH]; intros st st_k H; cbn [proceeds] in H.
  - subst. lia.
  - destruct H as (response & st1 & Hchat & Hcalls & Hd & Hrest).
    rewrite (IH _ _ Hrest).
    destruct (dispatch_state _ _ _ _ Hd) as [_ (evs & Ht & Hs)].
    rewrite Ht, llm_rounds_app, (llm_rounds_snapshots evs), Hs.
    unfold dispatching; simpl. rewrite llm_rounds_app. simpl. lia.
Qed.

(** A round that ends the run does so whatever the number of rounds left,
    after one request. *)
Lemma round_ends_run_loop (st st' : state) (out : result (option str)) :
  round_ends py net st out st' ->
  forall rounds, run_loop py net (S rounds) st = (out, st').
Proof.
  intros [(e & Hchat & -> & ->) | [(response & Hchat & Hcalls & -> & ->)
         | [(response & summary & Hchat & Hd & ->) | (response & e & Hchat & Hcalls & Hd & ->)]]]
         rounds.
  - cbn [run_loop].
    unfold bind at 1, get_messages at 1. unfold bind at 1, emit at 1.
    unfold bind at 1, lift at 1. cbn [messages trace]. rewrite Hchat. reflexivity.
  - cbn [run_loop].
    unfold bind at 1, get_messages at 1. unfold bind at 1, emit at 1.
    unfold bind at 1, lift at 1. cbn [messages trace]. rewrite Hchat, Hcalls. reflexivity.
  - rewrite (run_loop_round rounds st response Hchat), Hd; [reflexivity |].
    intros Hnil. rewrite Hnil in Hd. discriminate Hd.
  - rewrite (run_loop_round rounds st response Hchat Hcalls), Hd. reflexivity.
Qed.

Lemma round_ends_requests (st st' : state) (out : result (option str)) :
  round_ends py net st out st' ->
  llm_rounds (trace st') = llm_rounds (trace st) + 1.
Proof.
  assert (Hd : forall response o s,
             dispatch py net (rm_tool_calls response) (dispatching st response) = (o, s) ->
             llm_rounds (trace s) = llm_rounds (trace st) + 1).
  { intros response o s H. destruct (dispatch_state _ _ _ _ H) as [_ (evs & Ht & Hs)].
    rewrite Ht, llm_rounds_app, (llm_rounds_snapshots evs), Hs.
    unfold dispatching; simpl. rewrite llm_rounds_app. simpl. lia. }
  intros [(e & _ & _ & ->) | [(response & _ & _ & _ & ->)
         | [(response & summary & _ & H & _) | (response & e & _ & _ & H & _)]]].
  - simpl. rewrite llm_rounds_app. reflexivity.
  - simpl. rewrite llm_rounds_app. reflexivity.
  - exact (Hd _ _ _ H).
  - exact (Hd _ _ _ H).
Qed.

(** Every round either proceeds or ends the run. *)
Lemma round_cases (st : state) :
  (exists st1, proceeds py net 1 st st1)
  \/ exists out st', round_ends py net st out st'.
Proof.
  destruct (chat_completion net (messages st)) as [response|e] eqn:Hchat.
  - destruct (rm_tool_calls response) as [|tc calls] eqn:Hcalls.
    + right. do 2 eexists. right; left. exists response.
      split; [exact Hchat |]. split; [exact Hcalls |]. split; reflexivity.
    + assert (Hne : rm_tool_calls response <> []) by (rewrite Hcalls; discriminate).
      destruct (dispatch py net (rm_tool_calls response) (dispatching st response))
        as [[[summary|]|e] st1] eqn:Hd.
      * right. do 2 eexists. right; right; left. exists response, summary.
        split; [exact Hchat |]. split; [exact Hd | reflexivity].
      * left. exists st1. cbn [proceeds]. exists response, st1.
        split; [exact Hchat |]. split; [exact Hne |]. split; [exact Hd | reflexivity].
      * right. do 2 eexists. right; right; right. exists response, e.
        split; [exact Hchat |]. split; [exact Hne |]. split; [exact Hd | reflexivity].
  - right. do 2 eexists. left. exists e.
    split; [exact Hchat |]. split; reflexivity.
Qed.

(** The course of the loop over at most [rounds] rounds: some rounds
    proceed, and then either the rounds are used up or a round ends the
    run. *)
Lemma run_loop_course (rounds : nat) :
  forall st,
    exists k st_k,
      proceeds py net k st st_k
      /\ (k = rounds
          \/ (k < rounds /\ exists out st', round_ends py net st_k out st')).
Proof.
  induction rounds as [|rounds IH]; intros st.
  - exists 0, st. split; [reflexivity | now left].
  - destruct (round_cases st) as [[st1 H1] | Hend].
    + destruct (IH st1) as (k & st_k & Hk & Hcase).
      exists (S k), st_k. split.
      * cbn [proceeds] in H1. destruct H1 as (response & s & Hchat & Hcalls & Hd & Heq).
        subst s. cbn [proceeds]. exists response, st1. auto.
      * destruct Hcase as [-> | [Hlt Hend]]; [now left | right].
        split; [lia | exact Hend].
    + exists 0, st. split; [reflexivity |]. right. split; [lia | exact Hend].
Qed.

(** C2, amended.  From any state, [run] goes through [k] rounds that
    proceed, with [k] at most five, and then ends in one of two ways.  With
    [k] five it raises the iteration-limit exception, after exactly five
    requests to the LLM.  With [k] less than five the next round ends the
    run, after [k + 1] requests: with the exception of the LLM call, with the
    content of a response that asks for no tool (which is [None] when the
    response has no text), with the summary of a facts lookup, or with the
    exception of a tool or of the summarizer.  In particular five rounds
    that proceed give the iteration-limit exception, a response without tool
    calls ends the run in whichever round it comes, and [run] sends at least
    one and at most five requests. *)
Theorem run_round_bound :
  (forall st,
      exists k st_k,
        proceeds py net k st st_k
        /\ ((k = 5
             /\ run py net st = (Raise MaxIterations, st_k)
             /\ llm_rounds (trace st_k) = llm_rounds (trace st) + 5)
            \/ (k < 5
                /\ exists out st',
                    round_ends py net st_k out st'
                    /\ run py net st = (out, st')
                    /\ llm_rounds (trace st') = llm_rounds (trace st) + k + 1)))
  /\ (forall st st_end,
         proceeds py net 5 st st_end ->
         run py net st = (Raise MaxIterations, st_end)
         /\ llm_rounds (trace st_end) = llm_rounds (trace st) + 5)
  /\ (forall k st st_k response,
         k < 5 ->
         proceeds py net k st st_k ->
         chat_completion net (messages st_k) = Ok response ->
         rm_tool_calls response = [] ->
         run py net st
         = (Ok (rm_content response),
            {| messages := messages st_k
                           ++ [Plain (lit "assistant") (rm_content response)];
               trace := trace st_k ++ [LLMRequest (messages st_k)] |}))
  /\ (forall st,
         llm_rounds (trace st) + 1 <= llm_rounds (trace (snd (run py net st)))
         /\ llm_rounds (trace (snd (run py net st))) <= llm_rounds (trace st) + 5).
Proof.
  assert (Hends : forall k st st_k out st',
             k < 5 -> proceeds py net k st st_k -> round_ends py net st_k out st' ->
             run py net st = (out, st')
             /\ llm_rounds (trace st') = llm_rounds (trace st) + k + 1).
  { intros k st st_k out st' Hlt Hk Hend. split.
    - unfold run, max_iterations.
      replace 5 with (k + S (4 - k)) by lia.
      rewrite (proceeds_run_loop k st st_k Hk).
      apply (round_ends_run_loop _ _ _ Hend).
    - rewrite (round_ends_requests _ _ _ Hend), (proceeds_requests k _ _ Hk). lia. }
  assert (Hcap : forall st st_end,
             proceeds py net 5 st st_end ->
             run py net st = (Raise MaxIterations, st_end)
             /\ llm_rounds (trace st_end) = llm_rounds (trace st) + 5).
  { intros st st_end H5. split.
    - unfold run, max_iterations.
      change 5 with (5 + 0). rewrite (proceeds_run_loop 5 st st_end H5). reflexivity.
    - exact (proceeds_requests 5 _ _ H5). }
  split; [| split; [exact Hcap | split]].
  - intros st. destruct (run_loop_course 5 st) as (k & st_k & Hk & Hcase).
    exists k, st_k. split; [exact Hk |].
    destruct Hcase as [-> | [Hlt (out & st' & Hend)]].
    + left. split; [reflexivity | exact (Hcap _ _ Hk)].
    + right. split; [exact Hlt |]. exists out, st'. split; [exact Hend |].
      exact (Hends _ _ _ _ _ Hlt Hk Hend).
  - intros k st st_k response Hlt Hk Hchat Hcalls.
    apply (Hends k st st_k); [exact Hlt | exact Hk |].
    right; left. exists response. auto.
  - intros st. unfold run.
    destruct (run_loop py net max_iterations st) as [out st'] eqn:H.
    destruct (run_loop_chain _ _ _ _ H) as (events & Ht & _ & Hle & Hge).
    simpl. rewrite Ht, llm_rounds_app. unfold max_iterations in *. lia.
Qed.

End Loop.

(** ** The loop on concrete rounds *)

Lemma unknown_tool_gets_notice_witness :
  execute_tool PlainPy.runtime weather_net weather_call start
  = (Ok (lit "Tool 'get_weather' is not available."), start)
  /\ dispatch PlainPy.runtime weather_net [weather_call; ip_call] start
     = dispatch PlainPy.runtime weather_net [ip_call]
         (with_messages start
            [tool_message weather_call (lit "Tool 'get_weather' is not available.")]).
Proof.
  apply (unknown_tool_gets_notice PlainPy.runtime weather_net weather_call [ip_call] start);
    vm_compute; discriminate.
Defined.

Lemma unparseable_arguments_abort_run_witness :
  execute_tool PlainPy.runtime bare_net bare_call
    (dispatching start {| rm_content := None; rm_tool_calls := [bare_call] |})
  = (Raise (AttributeError (JStr (lit "Prague")) "get"),
     dispatching start {| rm_content := None; rm_tool_calls := [bare_call] |})
  /\ run_loop PlainPy.runtime bare_net 5 start
     = (Raise (AttributeError (JStr (lit "Prague")) "get"),
        dispatching start {| rm_content := None; rm_tool_calls := [bare_call] |}).
Proof.
  apply (unparseable_arguments_abort_run PlainPy.runtime bare_net 4 start
           (dispatching start {| rm_content := None; rm_tool_calls := [bare_call] |})
           {| rm_content := None; rm_tool_calls := [bare_call] |}
           [] [] bare_call (lit "Prague")).
  - right. reflexivity.
  - reflexivity.
  - vm_compute. reflexivity.
  - reflexivity.
  - reflexivity.
  - reflexivity.
Defined.

Lemma facts_lookup_ends_run_witness :
  run PlainPy.runtime prague_net start
  = (Ok (Some prague_summary),
     {| messages := main_messages
                    ++ [AssistantCalls None [prague_call; ip_call];
                        tool_message prague_call prague_facts;
                        Plain (lit "assistant") (Some prague_summary)];
        trace := [LLMRequest main_messages; FactsLookup (JStr (lit "Prague"))] |}).
Proof.
  etransitivity.
  - apply (facts_lookup_ends_run PlainPy.runtime prague_net 4 start
             (dispatching start prague_response)
             {| messages := messages (dispatching start prague_response);
                trace := trace (dispatching start prague_response)
                         ++ [FactsLookup (JStr (lit "Prague"))] |}
             prague_response [] [ip_call] prague_call prague_facts).
    + reflexivity.
    + reflexivity.
    + reflexivity.
    + reflexivity.
    + vm_compute. reflexivity.
  - vm_compute. reflexivity.
Defined.

Lemma weather_rounds_proceed (st : state) : round_proceeds PlainPy.runtime weather_net st.
Proof.
  exists {| rm_content := None; rm_tool_calls := [weather_call] |}.
  eexists. split; [reflexivity |]. split; [discriminate |].
  assert (Hname : forall tool, tool <> lit "get_weather" ->
                              fn_name (tc_function weather_call) <> tool)
    by (intros tool Hne Heq; apply Hne; rewrite <- Heq; reflexivity).
  apply (dispatch_unknown_tool PlainPy.runtime weather_net weather_call []
           (dispatching st {| rm_content := None; rm_tool_calls := [weather_call] |}));
    apply Hname; vm_compute; discriminate.
Qed.

(** The scripted stub [patient_net] would answer with text in a sixth
    round; the five rounds of [run] all proceed and the cap is reached. *)
Lemma run_round_bound_witness :
  exists st',
    run PlainPy.runtime patient_net start = (Raise MaxIterations, st')
    /\ llm_rounds (trace st') = llm_rounds (trace start) + 5.
Proof.
  eexists.
  apply (proj1 (proj2 (run_round_bound PlainPy.runtime patient_net)) start).
  cbn [proceeds].
  repeat (eexists; eexists;
          split; [reflexivity |];
          split; [discriminate |];
          split; [reflexivity |]).
  reflexivity.
Defined.

(** With [third_round_net] two rounds proceed and the text of the third
    response is returned, after three requests. *)
Example text_in_third_round_ends_run :
  fst (run PlainPy.runtime third_round_net start) = Ok (Some (lit "Here is what I found."))
  /\ llm_rounds (trace (snd (run PlainPy.runtime third_round_net start))) = 3.
Proof. split; vm_compute; reflexivity. Qed.

(** C2, as stated, fails: with an LLM that returns neither text nor tool
    calls, [run] returns [None] after one request; it does not raise. *)
Lemma silent_stub_returns_after_one_round :
  run PlainPy.runtime silent_net start
  = (Ok None,
     {| messages := main_messages ++ [Plain (lit "assistant") None];
        trace := [LLMRequest main_messages] |})
  /\ llm_rounds (trace (snd (run PlainPy.runtime silent_net start))) = 1
  /\ fst (run PlainPy.runtime silent_net start) <> Raise MaxIterations.
Proof.
  split; [vm_compute; reflexivity |].
  split; [vm_compute; reflexivity | vm_compute; discriminate].
Qed.

(** The same run as [facts_lookup_ends_run_witness], seen from outside: the
    second call of the round left no event. *)
Example prague_round_skips_second_call :
  trace (snd (run PlainPy.runtime prague_net start))
  = [LLMRequest main_messages; FactsLookup (JStr (lit "Prague"))].
Proof. vm_compute. reflexivity. Qed.

(** * Further properties of the code *)

(** ** The excerpt (lines 114-117) *)

Lemma rsplit_space_split (s : str) :
  match rsplit_space s with
  | (kept, true) => exists word, s = kept ++ SPACE :: word /\ ~ In SPACE word
  | (kept, false) => kept = s /\ ~ In SPACE s
  end.
Proof.
  induction s as [|c s IH]; simpl.
  - split; [reflexivity | intros []].
  - destruct (rsplit_space s) as [r [|]].
    + destruct IH as (word & -> & Hw). exists word. split; [reflexivity | exact Hw].
    + destruct IH as [-> Hs].
      destruct (N.eqb_spec c SPACE) as [->|Hc].
      * exists s. split; [reflexivity | exact Hs].
      * split; [reflexivity |]. intros [H|H]; [congruence | auto].
Qed.

(** X1: the excerpt is the stripped first paragraph when that has at most
    500 characters.  Otherwise its first 500 characters are split at their
    last space: the excerpt is what precedes that space followed by the
    ellipsis, and fits in 500 characters; with no space among them, all 500
    are kept and the excerpt has 501 characters. *)
Theorem excerpt_cut_at_last_space (content : str) :
  let paragraph := strip (split_first [NEWLINE; NEWLINE] content) in
  (List.length paragraph <= 500 /\ excerpt_of content = paragraph)
  \/ (500 < List.length paragraph
      /\ exists kept,
          excerpt_of content = kept ++ [ELLIPSIS]
          /\ ((exists word, firstn 500 paragraph = kept ++ SPACE :: word
                            /\ ~ In SPACE word
                            /\ List.length (excerpt_of content) <= 500)
              \/ (kept = firstn 500 paragraph
                  /\ ~ In SPACE kept
                  /\ List.length (excerpt_of content) = 501))).
Proof.
  intros paragraph. unfold excerpt_of. fold paragraph.
  destruct (Nat.ltb_spec 500 (List.length paragraph)) as [H|H]; [right | left; auto].
  split; [exact H |].
  exists (rsplit_space_head (firstn 500 paragraph)). split; [reflexivity |].
  unfold rsplit_space_head.
  pose proof (rsplit_space_split (firstn 500 paragraph)) as Hsplit.
  assert (Hlen : List.length (firstn 500 paragraph) = 500)
    by (rewrite length_firstn; lia).
  destruct (rsplit_space (firstn 500 paragraph)) as [kept [|]]; simpl.
  - left. destruct Hsplit as (word & Heq & Hw). exists word.
    split; [exact Heq |]. split; [exact Hw |].
    rewrite Heq, length_app in Hlen. simpl in Hlen.
    rewrite length_app. simpl. lia.
  - right. destruct Hsplit as [-> Hs]. split; [reflexivity |]. split; [exact Hs |].
    rewrite length_app, Hlen. reflexivity.
Qed.

Lemma startswith_spec (p s : str) :
  startswith p s = true <-> exists rest, s = p ++ rest.
Proof.
  revert s. induction p as [|a p IH]; intros s; simpl.
  - split; [intros _; now exists s | reflexivity].
  - destruct s as [|b s].
    + split; [discriminate | intros [rest H]; discriminate].
    + rewrite andb_true_iff, N.eqb_eq, IH. split.
      * intros [-> [rest ->]]. now exists rest.
      * intros [rest H]. inversion H; subst. split; [reflexivity | now exists rest].
Qed.

Lemma contains_spec (p s : str) :
  contains p s = true <-> exists before after, s = before ++ p ++ after.
Proof.
  induction s as [|c s IH]; simpl.
  - rewrite orb_false_r, startswith_spec. split.
    + intros [rest H]. exists [], rest. exact H.
    + intros (before & after & H). destruct before; [now exists after |].
      discriminate.
  - rewrite orb_true_iff, startswith_spec, IH. split.
    + intros [[rest H] | (before & after & ->)].
      * exists [], rest. exact H.
      * now exists (c :: before), after.
    + intros (before & after & H). destruct before as [|b before].
      * left. now exists after.
      * right. inversion H; subst. now exists before, after.
Qed.

Lemma contains_infix (p s before after : str) :
  contains p s = true -> contains p (before ++ s ++ after) = true.
Proof.
  rewrite !contains_spec. intros (b & a & ->).
  exists (before ++ b), (a ++ after). now rewrite <- !app_assoc.
Qed.

Lemma split_first_prefix (sep s : str) : exists rest, s = split_first sep s ++ rest.
Proof.
  induction s as [|c s [rest IH]]; simpl.
  - now exists [].
  - destruct (startswith sep (c :: s)).
    + now exists (c :: s).
    + exists rest. simpl. now rewrite <- IH.
Qed.

Lemma split_first_has_no_separator (sep s : str) :
  sep <> [] -> contains sep (split_first sep s) = false.
Proof.
  intros Hsep. induction s as [|c s IH]; simpl.
  - destruct sep; [congruence | reflexivity].
  - destruct (startswith sep (c :: s)) eqn:Hstart.
    + simpl. destruct sep; [congruence | reflexivity].
    + change (contains sep (c :: split_first sep s))
        with (startswith sep (c :: split_first sep s) || contains sep (split_first sep s)).
      rewrite IH, orb_false_r.
      destruct (startswith sep (c :: split_first sep s)) eqn:Hs; [| reflexivity].
      apply startswith_spec in Hs. destruct Hs as [rest Hs].
      destruct (split_first_prefix sep s) as [rest' Hp].
      assert (startswith sep (c :: s) = true).
      { apply startswith_spec. exists (rest ++ rest').
        rewrite app_assoc, <- Hs. simpl. now rewrite <- Hp. }
      congruence.
Qed.

Lemma lstrip_suffix (s : str) : exists dropped, s = dropped ++ lstrip s.
Proof.
  induction s as [|c s [dropped IH]]; simpl.
  - now exists [].
  - destruct (isspace c).
    + exists (c :: dropped). simpl. now rewrite <- IH.
    + now exists [].
Qed.

Lemma strip_infix (s : str) : exists before after, s = before ++ strip s ++ after.
Proof.
  unfold strip. destruct (lstrip_suffix s) as [before Hb].
  destruct (lstrip_suffix (rev (lstrip s))) as [dropped Hd].
  exists before, (rev dropped).
  rewrite <- rev_app_distr, <- Hd, rev_involutive. exact Hb.
Qed.

Lemma excerpt_cut_at_last_space_aux (content : str) :
  (List.length (strip (split_first [NEWLINE; NEWLINE] content)) <= 500
   /\ excerpt_of content = strip (split_first [NEWLINE; NEWLINE] content))
  \/ exists kept rest,
      excerpt_of content = kept ++ [ELLIPSIS]
      /\ firstn 500 (strip (split_first [NEWLINE; NEWLINE] content)) = kept ++ rest.
Proof.
  unfold excerpt_of.
  set (paragraph := strip (split_first [NEWLINE; NEWLINE] content)).
  destruct (Nat.ltb_spec 500 (List.length paragraph)) as [H|H]; [right | left; auto].
  unfold rsplit_space_head.
  pose proof (rsplit_space_split (firstn 500 paragraph)) as Hsplit.
  destruct (rsplit_space (firstn 500 paragraph)) as [kept [|]]; simpl.
  - destruct Hsplit as (word & Heq & _). exists kept, (SPACE :: word). auto.
  - destruct Hsplit as [-> _]. exists (firstn 500 paragraph), [].
    now rewrite app_nil_r.
Qed.

(** X2: the excerpt holds no blank line: it never runs past the first
    paragraph of the article. *)
Theorem excerpt_has_no_blank_line (content : str) :
  contains [NEWLINE; NEWLINE] (excerpt_of content) = false.
Proof.
  set (sep := [NEWLINE; NEWLINE]).
  set (paragraph := strip (split_first sep content)).
  assert (Hp : contains sep paragraph = false).
  { destruct (contains sep paragraph) eqn:E; [| reflexivity].
    destruct (strip_infix (split_first sep content)) as (before & after & Heq).
    pose proof (contains_infix sep paragraph before after E) as Hc.
    fold paragraph in Heq. rewrite <- Heq in Hc.
    rewrite split_first_has_no_separator in Hc by discriminate. discriminate. }
  destruct (excerpt_cut_at_last_space_aux content) as [[_ ->] | (kept & rest & -> & Hk)];
    [exact Hp |].
  fold sep in Hk. fold paragraph in Hk.
  destruct (contains sep (kept ++ [ELLIPSIS])) eqn:E; [| reflexivity].
  apply contains_spec in E. destruct E as (before & after & E).
  assert (Hkept : contains sep kept = true).
  { induction after as [|last after' _] using rev_ind.
    - rewrite app_nil_r in E.
      change (before ++ sep) with (before ++ [NEWLINE] ++ [NEWLINE]) in E.
      rewrite app_assoc in E. apply app_inj_tail in E. destruct E as [_ E]. discriminate.
    - rewrite !app_assoc in E. apply app_inj_tail in E. destruct E as [E _].
      apply contains_spec. exists before, after'. now rewrite app_assoc. }
  pose proof (contains_infix sep kept [] (rest ++ skipn 500 paragraph) Hkept) as Hc.
  simpl in Hc. rewrite app_assoc, <- Hk, firstn_skipn in Hc. congruence.
Qed.

(** ** The resolver and the facts payload (lines 108-184) *)

Ltac eval_keys :=
  repeat match goal with
         | |- context [str_eqb (lit ?a) (lit ?b)] =>
             let v := eval vm_compute in (str_eqb (lit a) (lit b)) in
             change (str_eqb (lit a) (lit b)) with v
         end.

Lemma dedup_from_length (l : list str) :
  forall seen, List.length (dedup_from seen l) <= List.length l.
Proof.
  induction l as [|x l IH]; intros seen; simpl; [lia |].
  destruct (existsb (str_eqb x) seen); simpl.
  - specialize (IH seen). lia.
  - specialize (IH (x :: seen)). lia.
Qed.

Lemma map_JStr_inj (a : list str) : forall b, map JStr a = map JStr b -> a = b.
Proof.
  induction a as [|x a IH]; intros [|y b] H; simpl in H.
  - reflexivity.
  - discriminate.
  - discriminate.
  - inversion H; subst. f_equal. now apply IH.
Qed.

Section Facts.

Variable py : Runtime.
Variable net : Services.

(** X3: the list of variants tried by exact lookup starts with the stripped
    name, has at most six entries, none twice, and each is one of the six
    surface forms. *)
Theorem candidates_shape (raw ascii_name : str) :
  (exists others, candidates py raw ascii_name = raw :: others)
  /\ List.length (candidates py raw ascii_name) <= 6
  /\ NoDup (candidates py raw ascii_name)
  /\ forall c, In c (candidates py raw ascii_name) ->
               In c [ raw; title py raw; ascii_name; title py ascii_name;
                      replace_space_hyphen raw; replace_space_hyphen ascii_name ].
Proof.
  unfold candidates, fromkeys. split; [| split; [| split]].
  - simpl. eexists. reflexivity.
  - eapply Nat.le_trans; [apply dedup_from_length | simpl; lia].
  - apply dedup_from_NoDup.
  - intros c Hc. apply dedup_from_In in Hc. tauto.
Qed.

(** X4: a score lies between 0 and 180. *)
Theorem score_range (raw ascii_name : str) (p : page) :
  (0 <= score py raw ascii_name p <= 180)%Z.
Proof.
  unfold score, category_bonus.
  repeat match goal with
         | |- context [if ?b then _ else _] => destruct b
         | |- context [match ?r with Ok _ => _ | Raise _ => _ end] => destruct r
         end; lia.
Qed.

(** X5: for a name that is empty once stripped and lowered, the substring
    test succeeds on every title, so every page scores at least 40. *)
Theorem empty_name_scores_substring (raw ascii_name : str) (p : page) :
  lower py raw = [] ->
  (40 <= score py raw ascii_name p)%Z.
Proof.
  intros Hraw. unfold score, category_bonus. rewrite Hraw.
  assert (Hc : contains [] (lower py (page_title p)) = true)
    by (destruct (lower py (page_title p)); reflexivity).
  rewrite Hc.
  repeat match goal with
         | |- context [if ?b then _ else _] => destruct b
         | |- context [match ?r with Ok _ => _ | Raise _ => _ end] => destruct r
         end; lia.
Qed.

(** The payload for a name that is a str, by what the lookups did. *)
Lemma payload_cases (name : str) :
  match direct_pass net (candidates py (strip name) (unidecode py (strip name))) with
  | Some p => location_facts_payload py net (JStr name) = found_payload (JStr name) p
  | None =>
      match wiki_search net (unidecode py (strip name)) with
      | Ok results =>
          match fetched net (firstn 10 results) with
          | [] => location_facts_payload py net (JStr name) = not_found_payload (JStr name)
          | _ :: _ =>
              exists winner,
                In winner (fetched net (firstn 10 results))
                /\ location_facts_payload py net (JStr name)
                   = found_payload (JStr name) winner
          end
      | Raise (DisambiguationError options _) =>
          location_facts_payload py net (JStr name)
          = disambiguation_payload (JStr name) options
      | Raise (PageError _) =>
          location_facts_payload py net (JStr name) = not_found_payload (JStr name)
      | Raise (OtherError kind msg) =>
          location_facts_payload py net (JStr name)
          = general_payload (JStr name) (OtherError kind msg)
      end
  end.
Proof.
  unfold location_facts_payload, resolve_city_page, py_strip, rbind.
  destruct (direct_pass net _) as [p|]; [reflexivity |].
  destruct (wiki_search net _) as [results|[options msg|msg|kind msg]];
    try reflexivity.
  destruct results as [|r results]; [reflexivity |].
  rewrite score_pass_fetched.
  destruct (fetched net (firstn 10 (r :: results))) as [|q pages] eqn:Hf; [reflexivity |].
  destruct (best_of_spec py (strip name) (unidecode py (strip name)) (q :: pages) None (-1))
    as [[_ Hall] | (before & w & after & Hp & Heq & _)].
  - pose proof (Hall q (or_introl eq_refl)).
    pose proof (score_nonneg py (strip name) (unidecode py (strip name)) q). lia.
  - rewrite Heq. exists w. split; [| reflexivity].
    rewrite Hp. apply in_or_app. right. now left.
Qed.

(** The [error] entry tells the payloads apart. *)
Lemma payload_error_key (name : json) :
  (forall p, py_get (found_payload name p) "error" JNull = Ok JNull)
  /\ py_get (not_found_payload name) "error" JNull = Ok (JStr (lit "not_found"))
  /\ (forall options, py_get (disambiguation_payload name options) "error" JNull
                      = Ok (JStr (lit "disambiguation")))
  /\ (forall e, py_get (general_payload name e) "error" JNull = Ok (JStr (lit "general"))).
Proof.
  unfold found_payload, not_found_payload, disambiguation_payload, general_payload, py_get.
  repeat split; intros; cbn [assoc]; eval_keys; reflexivity.
Qed.

Ltac clash H name :=
  apply (f_equal (fun payload => py_get payload "error" JNull)) in H;
  cbv beta in H;
  destruct (payload_error_key name) as (Kf & Kn & Kd & Kg);
  rewrite ?Kf, ?Kn, ?Kd, ?Kg in H; vm_compute in H; discriminate H.

Ltac clash_with H K name :=
  apply (f_equal (fun payload => py_get payload "error" JNull)) in H;
  cbv beta in H; rewrite K in H;
  destruct (payload_error_key name) as (Kf & Kn & Kd & Kg);
  rewrite ?Kf, ?Kn, ?Kd, ?Kg in H; vm_compute in H; discriminate H.

(** X6: for a name that is a str, the payload is the not-found one exactly
    when no variant is fetched by exact lookup and either the search raises
    the page error or none of its first ten results can be fetched. *)
Theorem not_found_exactly_when (name : str) :
  location_facts_payload py net (JStr name) = not_found_payload (JStr name)
  <-> direct_pass net (candidates py (strip name) (unidecode py (strip name))) = None
      /\ ((exists results, wiki_search net (unidecode py (strip name)) = Ok results
                           /\ fetched net (firstn 10 results) = [])
          \/ exists msg, wiki_search net (unidecode py (strip name)) = Raise (PageError msg)).
Proof.
  pose proof (payload_cases name) as Hc.
  destruct (direct_pass net _) as [p|].
  { split; [intros H; rewrite Hc in H; clash H (JStr name) | intros [H _]; discriminate]. }
  destruct (wiki_search net _) as [results|[options msg|msg|kind msg]].
  - destruct (fetched net (firstn 10 results)) as [|q pages] eqn:Hf.
    + split; [| intros _; exact Hc]. intros _. split; [reflexivity |].
      left. exists results. auto.
    + destruct Hc as (w & _ & Hc). split.
      * intros H. rewrite Hc in H. clash H (JStr name).
      * intros [_ [(results' & Heq & Hnil) | (msg & Heq)]]; [| discriminate].
        inversion Heq; subst. congruence.
  - split; [intros H; rewrite Hc in H; clash H (JStr name) |].
    intros [_ [(results & Heq & _) | (msg' & Heq)]]; discriminate.
  - split; [| intros _; exact Hc]. intros _. split; [reflexivity |]. right. eauto.
  - split; [intros H; rewrite Hc in H; clash H (JStr name) |].
    intros [_ [(results & Heq & _) | (msg' & Heq)]]; discriminate.
Qed.

(** X7: for a name that is a str, the payload is a disambiguation one
    exactly when no variant is fetched by exact lookup and the full-text
    search itself raises the disambiguation error; the payload then carries
    the first ten options of that error. *)
Theorem disambiguation_exactly_when (name : str) (shown : list str) :
  location_facts_payload py net (JStr name)
  = JObj [(lit "error", JStr (lit "disambiguation")); (lit "requested", JStr name);
          (lit "options", JArr (map JStr shown))]
  <-> direct_pass net (candidates py (strip name) (unidecode py (strip name))) = None
      /\ exists options msg,
           wiki_search net (unidecode py (strip name))
           = Raise (DisambiguationError options msg)
           /\ shown = firstn 10 options.
Proof.
  assert (Kshown : py_get (JObj [(lit "error", JStr (lit "disambiguation"));
                                 (lit "requested", JStr name);
                                 (lit "options", JArr (map JStr shown))]) "error" JNull
                   = Ok (JStr (lit "disambiguation")))
    by (unfold py_get; cbn [assoc]; eval_keys; reflexivity).
  pose proof (payload_cases name) as Hc.
  destruct (direct_pass net _) as [p|].
  { split; [| intros [H _]; discriminate].
    intros H. rewrite Hc in H. clash_with H Kshown (JStr name). }
  destruct (wiki_search net _) as [results|[options msg|msg|kind msg]].
  - split; [| intros [_ (o & m & Heq & _)]; discriminate].
    intros H. destruct (fetched net (firstn 10 results)) as [|q pages].
    + rewrite Hc in H. clash_with H Kshown (JStr name).
    + destruct Hc as (w & _ & Hc). rewrite Hc in H. clash_with H Kshown (JStr name).
  - split.
    + intros H. split; [reflexivity |]. exists options, msg. split; [reflexivity |].
      rewrite Hc in H. unfold disambiguation_payload in H.
      inversion H as [Hmap]. symmetry. now apply map_JStr_inj.
    + intros [_ (o & m & Heq & ->)]. inversion Heq; subst. exact Hc.
  - split; [| intros [_ (o & m & Heq & _)]; discriminate].
    intros H. rewrite Hc in H. clash_with H Kshown (JStr name).
  - split; [| intros [_ (o & m & Heq & _)]; discriminate].
    intros H. rewrite Hc in H. clash_with H Kshown (JStr name).
Qed.

(** X8: when the [name] argument of a facts call is anything but a str
    (it is [None] when the key is missing), the call raises nothing: the tool
    result is the general error payload whose details are the message of the
    AttributeError of calling [strip] on that value. *)
Theorem facts_lookup_of_non_string_name (tc : tool_call) (name : json) (st : state) :
  fn_name (tc_function tc) = GET_LOCATION_INFO ->
  py_get (parse_arguments py (fn_arguments (tc_function tc))) "name" JNull = Ok name ->
  (forall s, name <> JStr s) ->
  execute_tool py net tc st
  = (Ok (json_dumps py (general_payload name (AttributeError name "strip"))),
     {| messages := messages st; trace := trace st ++ [FactsLookup name] |}).
Proof.
  intros Hname Hget Hns.
  rewrite (execute_facts_lookup py net tc name st Hname Hget).
  replace (location_facts_payload py net name)
    with (general_payload name (AttributeError name "strip")); [reflexivity |].
  unfold location_facts_payload, resolve_city_page.
  destruct name; try reflexivity. exfalso. now apply (Hns s).
Qed.

(** X9: whatever the name and the lookups, the payload is a dict that
    repeats the requested name and is of one of four kinds: found, with
    title, url and an excerpt of at most 501 characters and no [error] key;
    not found; disambiguation, with at most ten options; or general, with
    details. *)
Theorem payload_shape (name : json) :
  exists fields,
    location_facts_payload py net name = JObj fields
    /\ assoc (lit "requested") fields = Some name
    /\ ((assoc (lit "error") fields = None
         /\ exists t u x,
             assoc (lit "resolved_title") fields = Some (JStr t)
             /\ assoc (lit "url") fields = Some (JStr u)
             /\ assoc (lit "excerpt") fields = Some (JStr x)
             /\ List.length x <= 501)
        \/ assoc (lit "error") fields = Some (JStr (lit "not_found"))
        \/ (assoc (lit "error") fields = Some (JStr (lit "disambiguation"))
            /\ exists options,
                assoc (lit "options") fields = Some (JArr (map JStr options))
                /\ List.length options <= 10)
        \/ (assoc (lit "error") fields = Some (JStr (lit "general"))
            /\ exists details, assoc (lit "details") fields = Some (JStr details))).
Proof.
  unfold location_facts_payload.
  destruct (resolve_city_page py net name) as [[p|]|[options msg|msg|kind msg]];
    eexists; (split; [reflexivity |]);
    (split; [cbn [assoc]; eval_keys; reflexivity |]).
  - left. split; [cbn [assoc]; eval_keys; reflexivity |].
    exists (page_title p), (page_url p), (excerpt_of (page_content p)).
    repeat (split; [cbn [assoc]; eval_keys; reflexivity |]).
    apply excerpt_length_le_501.
  - right; left. cbn [assoc]; eval_keys; reflexivity.
  - right; right; left. split; [cbn [assoc]; eval_keys; reflexivity |].
    exists (firstn 10 options). split; [cbn [assoc]; eval_keys; reflexivity |].
    apply firstn_le_length.
  - right; left. cbn [assoc]; eval_keys; reflexivity.
  - right; right; right. split; [cbn [assoc]; eval_keys; reflexivity |].
    eexists. cbn [assoc]; eval_keys; reflexivity.
Qed.

End Facts.

Lemma empty_name_scores_substring_witness :
  (40 <= score PlainPy.runtime [] [] new_york_page)%Z.
Proof.
  apply (empty_name_scores_substring PlainPy.runtime [] [] new_york_page). reflexivity.
Defined.

Lemma facts_lookup_of_non_string_name_witness :
  execute_tool PlainPy.runtime down_net nameless_call start
  = (Ok (json_dumps PlainPy.runtime (general_payload JNull (AttributeError JNull "strip"))),
     {| messages := messages start; trace := trace start ++ [FactsLookup JNull] |}).
Proof.
  apply (facts_lookup_of_non_string_name PlainPy.runtime down_net nameless_call JNull start).
  - reflexivity.
  - vm_compute. reflexivity.
  - intros s. discriminate.
Defined.

(** The payload for a missing name, as the LLM receives it. *)
Example missing_name_payload :
  json_dumps PlainPy.runtime (general_payload JNull (AttributeError JNull "strip"))
  = lit "{" ++ [34%N] ++ lit "error" ++ [34%N] ++ lit ": " ++ [34%N] ++ lit "general" ++ [34%N]
    ++ lit ", " ++ [34%N] ++ lit "requested" ++ [34%N] ++ lit ": null, "
    ++ [34%N] ++ lit "details" ++ [34%N] ++ lit ": " ++ [34%N]
    ++ lit "'NoneType' object has no attribute 'strip'" ++ [34%N] ++ lit "}".
Proof. vm_compute. reflexivity. Qed.

(** ** The summarizer (lines 186-206) *)

Section Summaries.

Variable py : Runtime.

(** X10: input that parses as JSON but not to an object makes the
    summarizer raise: a number, [null] or a boolean at the membership test,
    a string or a list at the subscript or at [get]. *)
Theorem summarize_non_object_raises (content : str) (data : json) :
  content <> [] ->
  json_loads py content = Some data ->
  (forall fields, data <> JObj fields) ->
  exists e, summarize_location_facts py content = Raise e.
Proof.
  intros Hne Hload Hobj. unfold summarize_location_facts.
  destruct content as [|c content]; [congruence |].
  rewrite Hload.
  destruct data; simpl; try (eexists; reflexivity).
  - destruct (contains (lit "error") s); simpl; eexists; reflexivity.
  - destruct (existsb (fun x => is_str x "error") items); simpl; eexists; reflexivity.
  - exfalso. now apply (Hobj fields).
Qed.

(** X11: a disambiguation payload is summarized by its first five options,
    joined by a comma and a space, whatever their number in the payload. *)
Theorem summary_lists_five_options (content : str) (name : json) (options : list str) :
  content <> [] ->
  json_loads py content = Some (disambiguation_payload name options) ->
  summarize_location_facts py content
  = Ok (lit "Multiple possible matches: " ++ join (lit ", ") (firstn 5 options)
        ++ lit ". Please specify more details (country/region).").
Proof.
  intros Hne Hload. unfold summarize_location_facts.
  destruct content as [|c content]; [congruence |].
  rewrite Hload.
  unfold disambiguation_payload, py_in, py_getitem, py_get, py_slice, py_join, is_str, rbind.
  cbn [assoc]. eval_keys. cbv iota.
  rewrite firstn_map, all_strs_map, firstn_firstn. reflexivity.
Qed.

(** X12: a general error payload is summarized by a sentence that names
    only the kind [general]: the details of the exception are not shown. *)
Theorem summary_hides_error_details (content : str) (name : json) (e : exn) :
  content <> [] ->
  json_loads py content = Some (general_payload name e) ->
  summarize_location_facts py content
  = Ok (lit "Error fetching facts (" ++ py_str py (JStr (lit "general"))
        ++ lit "). Try again later.").
Proof.
  intros Hne Hload. unfold summarize_location_facts.
  destruct content as [|c content]; [congruence |].
  rewrite Hload.
  unfold general_payload, py_in, py_getitem, py_get, is_str, rbind.
  cbn [assoc]. eval_keys. cbv iota. reflexivity.
Qed.

(** X13: a found payload is summarized by title, excerpt and url in the
    template [title: excerpt Source: url], cut at 600 characters. *)
Theorem summary_of_found_payload (content : str) (name : json) (p : page) :
  content <> [] ->
  json_loads py content = Some (found_payload name p) ->
  summarize_location_facts py content
  = Ok (firstn 600 (py_str py (JStr (page_title p)) ++ lit ": "
                    ++ py_str py (JStr (excerpt_of (page_content p)))
                    ++ lit " Source: " ++ py_str py (JStr (page_url p)))).
Proof.
  intros Hne Hload. unfold summarize_location_facts.
  destruct content as [|c content]; [congruence |].
  rewrite Hload.
  unfold found_payload, py_in, py_getitem, py_get, is_str, rbind.
  cbn [assoc]. eval_keys. cbv iota. reflexivity.
Qed.

End Summaries.

Lemma summarize_non_object_raises_witness :
  exists e, summarize_location_facts PlainPy.runtime (lit "42") = Raise e.
Proof.
  apply (summarize_non_object_raises PlainPy.runtime (lit "42") (JInt 42)).
  - discriminate.
  - vm_compute. reflexivity.
  - intros fields. discriminate.
Defined.

Lemma summary_lists_five_options_witness :
  summarize_location_facts PlainPy.runtime
    (PlainPy.json_dumps
       (disambiguation_payload (JStr (lit "Mercury"))
          [lit "a"; lit "b"; lit "c"; lit "d"; lit "e"; lit "f"; lit "g"]))
  = Ok (lit "Multiple possible matches: "
        ++ join (lit ", ")
             (firstn 5 [lit "a"; lit "b"; lit "c"; lit "d"; lit "e"; lit "f"; lit "g"])
        ++ lit ". Please specify more details (country/region).").
Proof.
  apply (summary_lists_five_options PlainPy.runtime _ (JStr (lit "Mercury"))).
  - vm_compute. discriminate.
  - vm_compute. reflexivity.
Defined.

Lemma summary_hides_error_details_witness :
  summarize_location_facts PlainPy.runtime
    (PlainPy.json_dumps
       (general_payload (JStr (lit "Prague"))
          (OtherError (lit "HTTPTimeoutError") (lit "timed out after 30 s"))))
  = Ok (lit "Error fetching facts (" ++ py_str PlainPy.runtime (JStr (lit "general"))
        ++ lit "). Try again later.").
Proof.
  apply (summary_hides_error_details PlainPy.runtime _ (JStr (lit "Prague"))
           (OtherError (lit "HTTPTimeoutError") (lit "timed out after 30 s"))).
  - vm_compute. discriminate.
  - vm_compute. reflexivity.
Defined.

Lemma summary_of_found_payload_witness :
  summarize_location_facts PlainPy.runtime prague_facts
  = Ok (firstn 600 (py_str PlainPy.runtime (JStr (page_title prague_page)) ++ lit ": "
                    ++ py_str PlainPy.runtime (JStr (excerpt_of (page_content prague_page)))
                    ++ lit " Source: " ++ py_str PlainPy.runtime (JStr (page_url prague_page)))).
Proof.
  apply (summary_of_found_payload PlainPy.runtime prague_facts (JStr (lit "Prague")) prague_page).
  - vm_compute. discriminate.
  - vm_compute. reflexivity.
Defined.

Lemma summarize_facts_payload_total_witness :
  exists summary,
    summarize_location_facts PlainPy.runtime
      (json_dumps PlainPy.runtime
         (location_facts_payload PlainPy.runtime ambiguous_net (JStr (lit "Mercury"))))
    = Ok summary.
Proof.
  apply (summarize_facts_payload_total PlainPy.runtime ambiguous_net (JStr (lit "Mercury"))).
  vm_compute. reflexivity.
Defined.

(** ** The loop (lines 208-259) and the dispatch (lines 70-106) *)

Lemma lstrip_starts_clean (s : str) : starts_clean (lstrip s).
Proof.
  induction s as [|c s IH]; simpl; [exact I |].
  destruct (isspace c) eqn:E; [exact IH | exact E].
Qed.

Lemma strip_trimmed (s : str) : trimmed (strip s).
Proof.
  unfold trimmed, strip. rewrite rev_involutive. split; [| apply lstrip_starts_clean].
  destruct (lstrip_suffix (rev (lstrip s))) as [dropped Hd].
  pose proof (lstrip_starts_clean s) as Hu.
  apply (f_equal (@rev N)) in Hd. rewrite rev_involutive, rev_app_distr in Hd.
  rewrite Hd in Hu.
  destruct (rev (lstrip (rev (lstrip s)))); [exact I | exact Hu].
Qed.

Section Rounds.

Variable py : Runtime.
Variable net : Services.

(** X15: a tool dispatch never touches the transcript, sends nothing to the
    LLM and enters at most one integration. *)
Theorem tool_dispatch_leaves_transcript (tc : tool_call) (st : state) :
  messages (snd (execute_tool py net tc st)) = messages st
  /\ exists events,
      trace (snd (execute_tool py net tc st)) = trace st ++ events
      /\ List.length events <= 1
      /\ llm_rounds events = 0.
Proof.
  unfold execute_tool, integrations_get_public_ip, integrations_get_location,
    integrations_get_location_facts.
  destruct (str_eqb (fn_name (tc_function tc)) GET_PUBLIC_IP).
  { unfold_monad. destruct (http_get_text net _); simpl;
      (split; [reflexivity | exists [PublicIpLookup]; simpl; auto]). }
  destruct (str_eqb (fn_name (tc_function tc)) GET_LOCATION).
  { unfold_monad.
    destruct (py_get (parse_arguments py (fn_arguments (tc_function tc))) "ip_address" JNull)
      as [ip|e]; simpl.
    - destruct (http_get_text net _); simpl;
        (split; [reflexivity | exists [LocationLookup ip]; simpl; auto]).
    - split; [reflexivity | exists []; rewrite app_nil_r; simpl; auto]. }
  destruct (str_eqb (fn_name (tc_function tc)) GET_LOCATION_INFO).
  { unfold_monad.
    destruct (py_get (parse_arguments py (fn_arguments (tc_function tc))) "name" JNull)
      as [name|e]; simpl.
    - split; [reflexivity | exists [FactsLookup name]; simpl; auto].
    - split; [reflexivity | exists []; rewrite app_nil_r; simpl; auto]. }
  unfold_monad. split; [reflexivity | exists []; rewrite app_nil_r; simpl; auto].
Qed.

(** X16: the text returned by the two location services reaches the
    transcript stripped: it has no whitespace at either end. *)
Theorem ip_lookup_result_is_trimmed (tc : tool_call) (st st' : state) (text : str) :
  fn_name (tc_function tc) = GET_PUBLIC_IP \/ fn_name (tc_function tc) = GET_LOCATION ->
  execute_tool py net tc st = (Ok text, st') ->
  trimmed text.
Proof.
  intros Hname. unfold execute_tool, integrations_get_public_ip, integrations_get_location.
  destruct Hname as [-> | ->].
  - change (str_eqb GET_PUBLIC_IP GET_PUBLIC_IP) with true. cbv iota.
    unfold_monad. destruct (http_get_text net _); intros H; inversion H.
    apply strip_trimmed.
  - change (str_eqb GET_LOCATION GET_PUBLIC_IP) with false.
    change (str_eqb GET_LOCATION GET_LOCATION) with true. cbv iota.
    unfold_monad. destruct (py_get _ "ip_address" JNull); simpl;
      [| intros H; discriminate H].
    destruct (http_get_text net _); intros H; inversion H.
    apply strip_trimmed.
Qed.

(** X17: a name of the catalog with a dict of arguments enters its
    integration, once, with the value the dict gives for the tool's
    parameter ([None] when the key is missing); a name outside the catalog
    gets the notice and enters none. *)
Theorem catalog_names_are_dispatched (tc : tool_call) (st : state) :
  (In (fn_name (tc_function tc)) tool_names ->
   forall fields,
     parse_arguments py (fn_arguments (tc_function tc)) = JObj fields ->
     snd (execute_tool py net tc st)
     = {| messages := messages st;
          trace := trace st ++ [integration_event (fn_name (tc_function tc)) fields] |})
  /\ (~ In (fn_name (tc_function tc)) tool_names ->
      execute_tool py net tc st
      = (Ok (unknown_tool_notice (fn_name (tc_function tc))), st)).
Proof.
  change tool_names with [GET_PUBLIC_IP; GET_LOCATION; GET_LOCATION_INFO].
  split.
  - intros Hin fields Hargs.
    unfold execute_tool, integration_event, integrations_get_public_ip,
      integrations_get_location, integrations_get_location_facts.
    rewrite Hargs. unfold py_get, argument.
    destruct Hin as [<- | [<- | [<- | []]]].
    + change (str_eqb GET_PUBLIC_IP GET_PUBLIC_IP) with true. cbv iota.
      unfold_monad. destruct (http_get_text net _); reflexivity.
    + change (str_eqb GET_LOCATION GET_PUBLIC_IP) with false.
      change (str_eqb GET_LOCATION GET_LOCATION) with true. cbv iota.
      unfold_monad.
      destruct (assoc (lit "ip_address") fields); simpl;
        destruct (http_get_text net _); reflexivity.
    + change (str_eqb GET_LOCATION_INFO GET_PUBLIC_IP) with false.
      change (str_eqb GET_LOCATION_INFO GET_LOCATION) with false.
      change (str_eqb GET_LOCATION_INFO GET_LOCATION_INFO) with true. cbv iota.
      unfold_monad.
      destruct (assoc (lit "name") fields); reflexivity.
  - intros Hout. apply execute_unknown_tool; intros Heq; apply Hout; rewrite Heq; simpl; auto.
Qed.

(** What the loop over a round's calls appends, whatever its outcome. *)
Lemma dispatch_results (calls : list tool_call) :
  forall st out st',
    dispatch py net calls st = (out, st') ->
    exists responses,
      List.length responses <= List.length calls
      /\ messages st'
         = messages st ++ tool_results calls responses
           ++ match out with
              | Ok (Some summary) => [Plain (lit "assistant") (Some summary)]
              | _ => []
              end
      /\ (out = Ok None -> List.length responses = List.length calls).
Proof.
  induction calls as [|tc calls IH]; intros st out st' H; simpl in H.
  - inversion H; subst. exists []. simpl. rewrite app_nil_r. auto.
  - apply bind_inv in H. destruct H as [(r & st1 & Hx & H) | (e & Hx & ->)].
    + destruct (execute_tool_state py net _ _ _ _ Hx) as [Hm _].
      apply bind_inv in H. destruct H as [([] & st2 & Ha & H) | (e & Ha & _)];
        [| discriminate Ha].
      inversion Ha; subst st2; clear Ha.
      destruct (str_eqb (fn_name (tc_function tc)) GET_LOCATION_INFO).
      * apply bind_inv in H. destruct H as [(summary & st3 & Hs & H) | (e & Hs & ->)].
        -- inversion Hs as [[Hsum Hst]]; subst st3.
           unfold_monad. inversion H; subst; simpl.
           exists [r]. unfold tool_results, tool_message. simpl.
           rewrite combine_nil, Hm, <- app_assoc. simpl.
           split; [lia |]. split; [reflexivity | discriminate].
        -- inversion Hs; subst; simpl.
           exists [r]. unfold tool_results, tool_message. simpl.
           rewrite combine_nil, Hm. simpl.
           split; [lia |]. split; [reflexivity | discriminate].
      * destruct (IH _ _ _ H) as (rs & Hlen & Hmsg & Hall).
        exists (r :: rs). simpl in *. rewrite Hmsg, Hm, <- app_assoc.
        split; [lia |]. split; [reflexivity |].
        intros Hout. specialize (Hall Hout). lia.
    + destruct (execute_tool_state py net _ _ _ _ Hx) as [Hm _].
      exists []. simpl. rewrite Hm, app_nil_r.
      split; [lia |]. split; [reflexivity | discriminate].
Qed.

Lemma executes_results (calls : list tool_call) :
  forall st responses st',
    executes py net calls st responses st' ->
    List.length responses = List.length calls
    /\ messages st' = messages st ++ tool_results calls responses.
Proof.
  induction calls as [|tc calls IH]; intros st responses st' H; inversion H; subst.
  - simpl. now rewrite app_nil_r.
  - match goal with
    | Hx : execute_tool py net tc st = _, Hr : executes py net calls _ _ _ |- _ =>
        destruct (execute_tool_state py net _ _ _ _ Hx) as [Hm _];
        destruct (IH _ _ _ Hr) as [Hlen Hmsg]
    end.
    split; [simpl; lia |].
    rewrite Hmsg. unfold tool_results. simpl. now rewrite Hm, <- app_assoc.
Qed.


(** X19: whenever the loop returns, the value returned is the content of
    an assistant message, and that message is the last of the transcript. *)
Theorem returned_text_is_last_message (rounds : nat) :
  forall st st' answer,
    run_loop py net rounds st = (Ok answer, st') ->
    exists earlier, messages st' = earlier ++ [Plain (lit "assistant") answer].
Proof.
  induction rounds as [|rounds IH]; intros st st' answer H; simpl in H.
  - discriminate H.
  - apply bind_inv in H. destruct H as [(msgs & st0 & Hg & H) | (e & _ & He)];
      [| discriminate He].
    inversion Hg; subst msgs st0; clear Hg.
    apply bind_inv in H. destruct H as [([] & st1 & He & H) | (e & _ & He)];
      [| discriminate He].
    inversion He; subst st1; clear He.
    apply bind_inv in H. destruct H as [(response & st1 & Hc & H) | (e & _ & He)];
      [| discriminate He].
    unfold lift in Hc. inversion Hc as [[Hchat Hst]]; subst st1; clear Hc.
    destruct (rm_tool_calls response) as [|tc calls].
    + unfold_monad. inversion H; subst; simpl. eexists. reflexivity.
    + apply bind_inv in H. destruct H as [([] & st2 & Ha & H) | (e & _ & He)];
        [| discriminate He].
      inversion Ha; subst st2; clear Ha.
      apply bind_inv in H. destruct H as [(finished & st3 & Hd & H) | (e & _ & He)];
        [| discriminate He].
      destruct (dispatch_results (tc :: calls) _ _ _ Hd) as (rs & _ & Hmsg & _). clear Hd.
      destruct finished as [summary|].
      * unfold ret in H. inversion H; subst.
        rewrite Hmsg, !app_assoc. eexists. reflexivity.
      * apply (IH _ _ _ H).
Qed.

(** X20: an exception raised by the LLM client leaves [run] at once, with
    the transcript as the round found it. *)
Theorem llm_failure_propagates (rounds : nat) (st : state) (e : exn) :
  chat_completion net (messages st) = Raise e ->
  run_loop py net (S rounds) st
  = (Raise e, {| messages := messages st; trace := trace st ++ [LLMRequest (messages st)] |}).
Proof.
  intros Hchat. cbn [run_loop].
  unfold bind at 1, get_messages at 1. unfold bind at 1, emit at 1.
  unfold bind at 1, lift at 1. cbn [messages trace]. rewrite Hchat. reflexivity.
Qed.

(** X21: an exception raised by a call of a round, whichever the tool and
    the exception, ends [run] with that exception; the calls before it have
    their results in the transcript, the failed call has none, and the calls
    after it are not executed. *)
Theorem tool_exception_aborts_run
        (rounds : nat) (st st1 st2 : state) (response : response_message)
        (before after : list tool_call) (tc : tool_call) (e : exn) :
  chat_completion net (messages st) = Ok response ->
  rm_tool_calls response = before ++ tc :: after ->
  dispatch py net before (dispatching st response) = (Ok None, st1) ->
  execute_tool py net tc st1 = (Raise e, st2) ->
  run_loop py net (S rounds) st = (Raise e, st2)
  /\ messages st2 = messages st1.
Proof.
  intros Hchat Hcalls Hbefore Hx. split.
  - rewrite (run_loop_round py net rounds st response Hchat)
      by (rewrite Hcalls; destruct before; discriminate).
    rewrite Hcalls, (dispatch_app py net before (tc :: after) _ _ Hbefore).
    simpl. unfold bind at 1. rewrite Hx. reflexivity.
  - apply (execute_tool_state py net _ _ _ _ Hx).
Qed.

End Rounds.

Lemma ip_lookup_result_is_trimmed_witness :
  trimmed (lit "http://ip-api.com/json/None").
Proof.
  apply (ip_lookup_result_is_trimmed PlainPy.runtime echo_net ipless_call start
           {| messages := messages start; trace := trace start ++ [LocationLookup JNull] |}
           (lit "http://ip-api.com/json/None")).
  - right. reflexivity.
  - vm_compute. reflexivity.
Defined.


Lemma returned_text_is_last_message_witness :
  exists earlier,
    messages (snd (run PlainPy.runtime prague_net start))
    = earlier ++ [Plain (lit "assistant") (Some prague_summary)].
Proof.
  apply (returned_text_is_last_message PlainPy.runtime prague_net 5 start).
  vm_compute. reflexivity.
Defined.

Lemma llm_failure_propagates_witness :
  run_loop PlainPy.runtime down_net 5 start
  = (Raise (OtherError (lit "APIError") (lit "offline")),
     {| messages := messages start; trace := trace start ++ [LLMRequest (messages start)] |}).
Proof.
  apply (llm_failure_propagates PlainPy.runtime down_net 4 start). reflexivity.
Defined.

Lemma tool_exception_aborts_run_witness :
  run_loop PlainPy.runtime ip_down_net 5 start
  = (Raise (OtherError (lit "ConnectionError") (lit "offline")),
     {| messages := main_messages
                    ++ [AssistantCalls None [weather_call; ip_call];
                        tool_message weather_call (lit "Tool 'get_weather' is not available.")];
        trace := [LLMRequest main_messages; PublicIpLookup] |})
  /\ messages {| messages := main_messages
                    ++ [AssistantCalls None [weather_call; ip_call];
                        tool_message weather_call (lit "Tool 'get_weather' is not available.")];
                 trace := [LLMRequest main_messages; PublicIpLookup] |}
     = messages {| messages := main_messages
                    ++ [AssistantCalls None [weather_call; ip_call];
                        tool_message weather_call (lit "Tool 'get_weather' is not available.")];
                   trace := [LLMRequest main_messages] |}.
Proof.
  apply (tool_exception_aborts_run PlainPy.runtime ip_down_net 4 start
           {| messages := main_messages
                    ++ [AssistantCalls None [weather_call; ip_call];
                        tool_message weather_call (lit "Tool 'get_weather' is not available.")];
              trace := [LLMRequest main_messages] |}
           {| messages := main_messages
                    ++ [AssistantCalls None [weather_call; ip_call];
                        tool_message weather_call (lit "Tool 'get_weather' is not available.")];
              trace := [LLMRequest main_messages; PublicIpLookup] |}
           ip_down_response [weather_call] [] ip_call
           (OtherError (lit "ConnectionError") (lit "offline"))).
  - reflexivity.
  - reflexivity.
  - vm_compute. reflexivity.
  - vm_compute. reflexivity.
Defined.

(** The names advertised are the three the dispatch serves. *)
Example catalog_is_three_tools :
  tool_names = [GET_PUBLIC_IP; GET_LOCATION; GET_LOCATION_INFO].
Proof. reflexivity. Qed.

Lemma not_found_exactly_when_witness :
  location_facts_payload PlainPy.runtime ambiguous_net (JStr (lit "Mercury"))
  = not_found_payload (JStr (lit "Mercury")).
Proof.
  apply (proj2 (not_found_exactly_when PlainPy.runtime ambiguous_net (lit "Mercury"))).
  split; [vm_compute; reflexivity |].
  left. exists [lit "Mercury"]. split; vm_compute; reflexivity.
Defined.

Lemma disambiguation_exactly_when_witness :
  location_facts_payload PlainPy.runtime
    (failing_search_net
       (DisambiguationError (repeat (lit "Mercury (x)") 12) (lit "may refer to")))
    (JStr (lit "Mercury"))
  = JObj [(lit "error", JStr (lit "disambiguation")); (lit "requested", JStr (lit "Mercury"));
          (lit "options", JArr (map JStr (repeat (lit "Mercury (x)") 10)))].
Proof.
  apply (proj2 (disambiguation_exactly_when PlainPy.runtime
                  (failing_search_net
                     (DisambiguationError (repeat (lit "Mercury (x)") 12) (lit "may refer to")))
                  (lit "Mercury") (repeat (lit "Mercury (x)") 10))).
  split; [vm_compute; reflexivity |].
  exists (repeat (lit "Mercury (x)") 12), (lit "may refer to").
  split; vm_compute; reflexivity.
Defined.

Lemma catalog_names_are_dispatched_witness :
  snd (execute_tool PlainPy.runtime echo_net ipless_call start)
  = {| messages := messages start;
       trace := trace start ++ [integration_event (fn_name (tc_function ipless_call)) []] |}.
Proof.
  apply (proj1 (catalog_names_are_dispatched PlainPy.runtime echo_net ipless_call start)).
  - right; left. reflexivity.
  - vm_compute. reflexivity.
Defined.

(** The three rounds of the scripted run: each tool result is appended under
    its call, the location service is asked about the IP the first round
    returned, and the run ends on the summary of the facts. *)
Example where_am_i_run :
  run PlainPy.runtime where_net start
  = (Ok (Some prague_summary),
     {| messages :=
          main_messages
          ++ [AssistantCalls None [ip_call];
              tool_message ip_call where_ip;
              AssistantCalls None
                [call "call_3" "get_location"
                      (PlainPy.json_dumps (JObj [(lit "ip_address", JStr where_ip)]))];
              ToolResult (lit "call_3") (lit "get_location") where_location;
              AssistantCalls None [prague_call];
              tool_message prague_call prague_facts;
              Plain (lit "assistant") (Some prague_summary)];
        trace :=
          [LLMRequest main_messages; PublicIpLookup;
           LLMRequest (main_messages
                       ++ [AssistantCalls None [ip_call]; tool_message ip_call where_ip]);
           LocationLookup (JStr where_ip);
           LLMRequest (main_messages
                       ++ [AssistantCalls None [ip_call];
                           tool_message ip_call where_ip;
                           AssistantCalls None
                             [call "call_3" "get_location"
                                   (PlainPy.json_dumps
                                      (JObj [(lit "ip_address", JStr where_ip)]))];
                           ToolResult (lit "call_3") (lit "get_location") where_location]);
           FactsLookup (JStr (lit "Prague"))] |}).
Proof. vm_compute. reflexivity. Qed.

Section Skipped.

Variable py : Runtime.
Variable net : Services.

Lemma tool_results_app (before : list tool_call) (responses : list str)
      (tc : tool_call) (r : str) :
  List.length responses = List.length before ->
  tool_results (before ++ [tc]) (responses ++ [r])
  = tool_results before responses ++ [tool_message tc r].
Proof.
  revert responses. induction before as [|b before IH]; intros [|x responses] Hlen;
    simpl in Hlen; try discriminate.
  - reflexivity.
  - unfold tool_results in *. simpl. f_equal. apply IH. lia.
Qed.

(** X22: when a facts lookup ends the run, the transcript holds the
    assistant message with all the calls of the round, the tool results of
    the calls up to the facts lookup, one each and in order, and the summary;
    the calls after the facts lookup stay in the assistant message without a
    tool result. *)
Theorem skipped_calls_have_no_result
        (rounds : nat) (st st1 st2 : state) (response : response_message)
        (before after : list tool_call) (tc : tool_call) (tool_response summary : str) :
  chat_completion net (messages st) = Ok response ->
  rm_tool_calls response = before ++ tc :: after ->
  dispatch py net before (dispatching st response) = (Ok None, st1) ->
  fn_name (tc_function tc) = GET_LOCATION_INFO ->
  execute_tool py net tc st1 = (Ok tool_response, st2) ->
  summarize_location_facts py tool_response = Ok summary ->
  exists responses,
    List.length responses = List.length before
    /\ messages (snd (run_loop py net (S rounds) st))
       = messages st
         ++ [AssistantCalls (rm_content response) (before ++ tc :: after)]
         ++ tool_results (before ++ [tc]) (responses ++ [tool_response])
         ++ [Plain (lit "assistant") (Some summary)].
Proof.
  intros Hchat Hcalls Hbefore Hname Hx Hsum.
  destruct (dispatch_results py net before _ _ _ Hbefore) as (responses & _ & Hmsg & Hall).
  specialize (Hall eq_refl). exists responses. split; [exact Hall |].
  destruct (execute_tool_state py net _ _ _ _ Hx) as [Hm _].
  rewrite (run_loop_round py net rounds st response Hchat)
    by (rewrite Hcalls; destruct before; discriminate).
  rewrite Hcalls, (dispatch_app py net before (tc :: after) _ _ Hbefore).
  simpl. unfold bind at 1. rewrite Hx.
  unfold bind at 1, append_message at 1.
  replace (str_eqb (fn_name (tc_function tc)) GET_LOCATION_INFO) with true
    by (rewrite Hname; symmetry; apply str_eqb_refl).
  unfold bind at 1, lift at 1. rewrite Hsum.
  unfold_monad. rewrite Hm, Hmsg. unfold dispatching. simpl.
  rewrite Hcalls, (tool_results_app before responses tc tool_response Hall).
  unfold tool_message. rewrite app_nil_r, <- !app_assoc. reflexivity.
Qed.

End Skipped.

Lemma skipped_calls_have_no_result_witness :
  exists responses,
    List.length responses = List.length (@nil tool_call)
    /\ messages (snd (run_loop PlainPy.runtime prague_net 5 start))
       = messages start
         ++ [AssistantCalls (rm_content prague_response) ([] ++ prague_call :: [ip_call])]
         ++ tool_results ([] ++ [prague_call]) (responses ++ [prague_facts])
         ++ [Plain (lit "assistant") (Some prague_summary)].
Proof.
  apply (skipped_calls_have_no_result PlainPy.runtime prague_net 4 start
           (dispatching start prague_response)
           {| messages := messages (dispatching start prague_response);
              trace := trace (dispatching start prague_response)
                       ++ [FactsLookup (JStr (lit "Prague"))] |}
           prague_response [] [ip_call] prague_call prague_facts prague_summary).
  - reflexivity.
  - reflexivity.
  - reflexivity.
  - reflexivity.
  - vm_compute. reflexivity.
  - vm_compute. reflexivity.
Defined.
